(** * Arcade physics: axis-generic overlap and separation

    A shallow embedding of the axis projector ([Axis]), the overlap
    calculator ([GetOverlap]), the collision resolution process
    ([Process]) and the separation orchestrator ([Separate]), followed by
    the properties of the design document that were checked against them.

    Numbers.  The JavaScript sources compute on IEEE doubles.  The design
    document restricts the input domain to finite, non-NaN values, and none
    of the properties below is about rounding, so a JavaScript number is
    modelled as an exact rational ([Q]); [===] on numbers is [Qeq_bool],
    and the statements compare numbers with [==].

    Objects.  A body is a mutable object shared by reference between
    [Separate], [GetOverlap] and the variables of [Process].  The two
    bodies of a pair are distinct objects with their own vectors and edge
    structs, so the heap of one resolution is the pair of bodies, threaded
    explicitly through every function that mutates one of them. *)

From Stdlib Require Import QArith Qabs Qminmax ZArith Bool String Lia Lqa.

Local Open Scope Q_scope.

(** ** Numbers *)

Definition number : Type := Q.

(** [a === b] on numbers. *)
Definition strictEq (a b : number) : bool := Qeq_bool a b.

(** [a < b] and [a > b] on numbers. *)
Definition ltb (a b : number) : bool := negb (Qle_bool b a).
Definition gtb (a b : number) : bool := ltb b a.

(** ** Data model *)

(** [Phaser.Math.Vector2], as far as the core reads and writes it. *)
Record Vector2 : Type := vec { x : number; y : number }.

(** [BaseAxis~Sided<T>]: one value per side. *)
Record Sided (T : Type) : Type :=
  sided { up : T; right : T; down : T; left : T }.

Arguments sided {T} _ _ _ _.
Arguments up {T} _.
Arguments right {T} _.
Arguments down {T} _.
Arguments left {T} _.

(** [BaseAxis~Edges]: a [Sided<boolean>] with the additional [none] flag
    (the shape of [body.touching] and [body.blocked]). *)
Record Edges : Type := edges { sides :> Sided bool; none : bool }.

(** [CONST.DYNAMIC_BODY] and [CONST.STATIC_BODY]: the two values
    [body.physicsType] takes. *)
Inductive PhysicsType : Type := DYNAMIC_BODY | STATIC_BODY.

Definition isStatic (t : PhysicsType) : bool :=
  match t with STATIC_BODY => true | DYNAMIC_BODY => false end.

(** The fields of an arcade body that the core reads or writes. *)
Record Body : Type := mkBody {
  position : Vector2;
  prev : Vector2;
  velocity : Vector2;
  width : number;
  height : number;
  center : Vector2;
  mass : number;
  bounce : Vector2;
  friction : Vector2;
  pushable : bool;
  immovable : bool;
  moves : bool;
  physicsType : PhysicsType;
  customSeparateX : bool;
  customSeparateY : bool;
  checkCollision : Sided bool;
  touching : Edges;
  blocked : Edges;
  overlapV : Vector2;
  embedded : bool
}.

(** Field assignments [body.f = v]. *)

Definition with_position (b : Body) (v : Vector2) : Body :=
  mkBody v (prev b) (velocity b) (width b) (height b) (center b) (mass b)
    (bounce b) (friction b) (pushable b) (immovable b) (moves b)
    (physicsType b) (customSeparateX b) (customSeparateY b)
    (checkCollision b) (touching b) (blocked b) (overlapV b) (embedded b).

Definition with_velocity (b : Body) (v : Vector2) : Body :=
  mkBody (position b) (prev b) v (width b) (height b) (center b) (mass b)
    (bounce b) (friction b) (pushable b) (immovable b) (moves b)
    (physicsType b) (customSeparateX b) (customSeparateY b)
    (checkCollision b) (touching b) (blocked b) (overlapV b) (embedded b).

Definition with_center (b : Body) (v : Vector2) : Body :=
  mkBody (position b) (prev b) (velocity b) (width b) (height b) v (mass b)
    (bounce b) (friction b) (pushable b) (immovable b) (moves b)
    (physicsType b) (customSeparateX b) (customSeparateY b)
    (checkCollision b) (touching b) (blocked b) (overlapV b) (embedded b).

Definition with_touching (b : Body) (e : Edges) : Body :=
  mkBody (position b) (prev b) (velocity b) (width b) (height b) (center b)
    (mass b) (bounce b) (friction b) (pushable b) (immovable b) (moves b)
    (physicsType b) (customSeparateX b) (customSeparateY b)
    (checkCollision b) e (blocked b) (overlapV b) (embedded b).

Definition with_blocked (b : Body) (e : Edges) : Body :=
  mkBody (position b) (prev b) (velocity b) (width b) (height b) (center b)
    (mass b) (bounce b) (friction b) (pushable b) (immovable b) (moves b)
    (physicsType b) (customSeparateX b) (customSeparateY b)
    (checkCollision b) (touching b) e (overlapV b) (embedded b).

Definition with_overlapV (b : Body) (v : Vector2) : Body :=
  mkBody (position b) (prev b) (velocity b) (width b) (height b) (center b)
    (mass b) (bounce b) (friction b) (pushable b) (immovable b) (moves b)
    (physicsType b) (customSeparateX b) (customSeparateY b)
    (checkCollision b) (touching b) (blocked b) v (embedded b).

Definition with_embedded (b : Body) (e : bool) : Body :=
  mkBody (position b) (prev b) (velocity b) (width b) (height b) (center b)
    (mass b) (bounce b) (friction b) (pushable b) (immovable b) (moves b)
    (physicsType b) (customSeparateX b) (customSeparateY b)
    (checkCollision b) (touching b) (blocked b) (overlapV b) e.

(** Modelled from the spec: the rectangle extents of a body.  The body
    class is not part of the sources at hand; the design document gives the
    extents as [left/right/up/down], derived from position and size.  The
    lower edges are the position, the upper edges the position plus the
    size. *)
Definition extents (b : Body) : Sided number :=
  sided (y (position b))
        (x (position b) + width b)
        (y (position b) + height b)
        (x (position b)).

(** Modelled from the spec: [body.updateCenter()], which recomputes the
    derived centre of the rectangle from position and size. *)
Definition updateCenter (b : Body) : Body :=
  with_center b (vec (x (position b) + width b / 2)
                     (y (position b) + height b / 2)).

(** Errors: a function either returns or throws. *)
Inductive outcome (A : Type) : Type :=
| Returned (a : A)
| Thrown (msg : string).

Arguments Returned {A} _.
Arguments Thrown {A} _.

Definition bind {A B : Type} (m : outcome A) (k : A -> outcome B) : outcome B :=
  match m with
  | Returned a => k a
  | Thrown msg => Thrown msg
  end.

(** ** The axis projector *)

Module Axis.

(** The two singletons [Axis.X] and [Axis.Y]. *)
Inductive t : Type := X | Y.

(** [axis.other]. *)
Definition other (ax : t) : t :=
  match ax with X => Y | Y => X end.

(** [axis.get(v)]. *)
Definition get (ax : t) (v : Vector2) : number :=
  match ax with X => x v | Y => y v end.

(** [axis.set(v, val)]: the vector after the assignment. *)
Definition set (ax : t) (v : Vector2) (val : number) : Vector2 :=
  match ax with X => vec val (y v) | Y => vec (x v) val end.

(** [axis.lu(v)]. *)
Definition lu {T : Type} (ax : t) (v : Sided T) : T :=
  match ax with X => left v | Y => up v end.

(** [axis.rd(v)]. *)
Definition rd {T : Type} (ax : t) (v : Sided T) : T :=
  match ax with X => right v | Y => down v end.

(** [axis.rd(v)] applied to a primitive boolean [v] instead of a sided
    struct: the property read [v.right] (or [v.down]) on a boolean yields
    [undefined], which is falsy where a condition reads it. *)
Definition rd_of_boolean (ax : t) (v : bool) : bool :=
  match ax with X => false | Y => false end.

(** [axis.setEdges(v, lu, rd)]: the struct after the three assignments.
    An argument passed as [undefined] is [false] here, since the method
    only reads it as the left operand of [||]. *)
Definition setEdges (ax : t) (v : Edges) (lu rd : bool) : Edges :=
  match ax with
  | X =>
      let up' := lu || up v in
      let down' := rd || down v in
      edges (sided up' (right v) down' (left v))
            (none v && negb up' && negb down')
  | Y =>
      let up' := lu || up v in
      let down' := rd || down v in
      edges (sided up' (right v) down' (left v))
            (none v && negb up' && negb down')
  end.

(** [axis.getCustomSeparate(v)]. *)
Definition getCustomSeparate (ax : t) (v : Body) : bool :=
  match ax with X => customSeparateX v | Y => customSeparateY v end.

(** [axis.inc(v, val)]. *)
Definition inc (ax : t) (v : Vector2) (val : number) : Vector2 :=
  set ax v (get ax v + val).

(** [axis.delta(v1, v2)]. *)
Definition delta (ax : t) (v1 v2 : Vector2) : number :=
  get ax v1 - get ax v2.

(** [axis.inOrder(a, b)]. *)
Definition inOrder (ax : t) (a b : Body) : bool :=
  Qle_bool (Qabs (rd ax (extents a) - lu ax (extents b)))
           (Qabs (rd ax (extents b) - lu ax (extents a))).

(** [axis.displaceTo(body, offset, v, blockLu, blockRd)].  [None] is a
    [null] or [undefined] argument. *)
Definition displaceTo (ax : t) (body : Body) (offset v : option number)
    (blockLu blockRd : bool) : Body :=
  let body :=
    match offset with
    | Some o => updateCenter (with_position body (inc ax (position body) o))
    | None => body
    end in
  let body :=
    match v with
    | Some v' => with_velocity body (set ax (velocity body) v')
    | None => body
    end in
  if blockLu || blockRd
  then with_blocked body (setEdges ax (blocked body) blockLu blockRd)
  else body.

End Axis.

(** ** The overlap calculator *)

(** [GetOverlap(axis, body1, body2, overlapOnly, bias)]: the returned
    overlap and the two bodies after the call.  [minBody] and [maxBody]
    alias [body1] and [body2], swapped when [d1 < d2]; the pair is put
    back in argument order at the end. *)
Definition GetOverlap (axis : Axis.t) (body1 body2 : Body)
    (overlapOnly : bool) (bias : number) : number * (Body * Body) :=
  let d1 := Axis.get axis (position body1) - Axis.get axis (prev body1) in
  let d2 := Axis.get axis (position body2) - Axis.get axis (prev body2) in
  let maxOverlap := Qabs d1 + Qabs d2 + bias in
  if strictEq d1 d2 then
    let body1 := with_embedded body1 true in
    let body2 := with_embedded body2 true in
    let body1 := with_overlapV body1 (Axis.set axis (overlapV body1) 0) in
    let body2 := with_overlapV body2 (Axis.set axis (overlapV body2) 0) in
    (0, (body1, body2))
  else
    let swapped := ltb d1 d2 in
    let minBody := if swapped then body2 else body1 in
    let maxBody := if swapped then body1 else body2 in
    let overlap :=
      Axis.rd axis (extents minBody) - Axis.lu axis (extents maxBody) in
    let '(overlap, (minBody, maxBody)) :=
      if (gtb overlap maxOverlap && negb overlapOnly)
         || negb (Axis.rd axis (checkCollision minBody))
         || negb (Axis.lu axis (checkCollision maxBody))
      then (0, (minBody, maxBody))
      else
        let minBody :=
          with_touching minBody
            (Axis.setEdges axis (touching minBody) false true) in
        let maxBody :=
          with_touching maxBody
            (Axis.setEdges axis (touching maxBody) true false) in
        let minBody :=
          if isStatic (physicsType maxBody) && negb overlapOnly
          then with_blocked minBody
                 (Axis.setEdges axis (blocked minBody) false true)
          else minBody in
        let maxBody :=
          if isStatic (physicsType minBody) && negb overlapOnly
          then with_blocked maxBody
                 (Axis.setEdges axis (blocked maxBody) true false)
          else maxBody in
        (overlap, (minBody, maxBody)) in
    let minBody :=
      with_overlapV minBody (Axis.set axis (overlapV minBody) overlap) in
    let maxBody :=
      with_overlapV maxBody (Axis.set axis (overlapV maxBody) overlap) in
    (overlap, if swapped then (maxBody, minBody) else (minBody, maxBody)).

(** ** The collision resolution process *)

Module Process.

(** The module-level variables.  [Set_] assigns all of them except the
    two mass impacts, which [Check] assigns before [Run] reads them;
    [None] is a mass impact not assigned in this resolution.  [body1]
    and [body2] hold the two bodies under resolution. *)
Record vars : Type := mkVars {
  axis : Axis.t;
  body1 : Body;
  body2 : Body;
  body1Pushable : bool;
  body2Pushable : bool;
  body1MassImpact : option number;
  body2MassImpact : option number;
  body1FullImpact : number;
  body2FullImpact : number;
  body1MovingLeft : bool;
  body1MovingRight : bool;
  body1Stationary : bool;
  body2MovingLeft : bool;
  body2MovingRight : bool;
  body2Stationary : bool;
  body1OnLeft : bool;
  body2OnLeft : bool;
  overlap : number
}.

(** A mutation of the object [body1] refers to. *)
Definition with_body1 (s : vars) (b : Body) : vars :=
  mkVars (axis s) b (body2 s) (body1Pushable s) (body2Pushable s)
    (body1MassImpact s) (body2MassImpact s) (body1FullImpact s)
    (body2FullImpact s) (body1MovingLeft s) (body1MovingRight s)
    (body1Stationary s) (body2MovingLeft s) (body2MovingRight s)
    (body2Stationary s) (body1OnLeft s) (body2OnLeft s) (overlap s).

(** A mutation of the object [body2] refers to. *)
Definition with_body2 (s : vars) (b : Body) : vars :=
  mkVars (axis s) (body1 s) b (body1Pushable s) (body2Pushable s)
    (body1MassImpact s) (body2MassImpact s) (body1FullImpact s)
    (body2FullImpact s) (body1MovingLeft s) (body1MovingRight s)
    (body1Stationary s) (body2MovingLeft s) (body2MovingRight s)
    (body2Stationary s) (body1OnLeft s) (body2OnLeft s) (overlap s).

(** The assignments to [body1MassImpact] and [body2MassImpact]. *)
Definition with_massImpacts (s : vars) (i1 i2 : number) : vars :=
  mkVars (axis s) (body1 s) (body2 s) (body1Pushable s) (body2Pushable s)
    (Some i1) (Some i2) (body1FullImpact s)
    (body2FullImpact s) (body1MovingLeft s) (body1MovingRight s)
    (body1Stationary s) (body2MovingLeft s) (body2MovingRight s)
    (body2Stationary s) (body1OnLeft s) (body2OnLeft s) (overlap s).

(** The two bodies, in argument order. *)
Definition bodies (s : vars) : Body * Body := (body1 s, body2 s).

(** [BlockCheck()]: the block state and the variables after the call. *)
Definition BlockCheck (s : vars) : Z * vars :=
  if body1MovingRight s && body1OnLeft s
     && Axis.rd (axis s) (blocked (body2 s))
  then
    (1%Z, with_body1 s
            (Axis.displaceTo (axis s) (body1 s) (Some (- overlap s))
               (Some (body1FullImpact s)) false true))
  else if body1MovingLeft s && body2OnLeft s
          && Axis.lu (axis s) (blocked (body2 s))
  then
    (1%Z, with_body1 s
            (Axis.displaceTo (axis s) (body1 s) (Some (overlap s))
               (Some (body1FullImpact s)) true false))
  else if body2MovingRight s && body2OnLeft s
          && Axis.rd_of_boolean (axis s) (right (blocked (body1 s)))
  then
    (2%Z, with_body2 s
            (Axis.displaceTo (axis s) (body2 s) (Some (- overlap s))
               (Some (body2FullImpact s)) false true))
  else if body2MovingLeft s && body1OnLeft s && left (blocked (body1 s))
  then
    (2%Z, with_body2 s
            (Axis.displaceTo (axis s) (body2 s) (Some (overlap s))
               (Some (body2FullImpact s)) true false))
  else (0%Z, s).

(** [Set(ax, b1, b2, ov)] ([Set] is reserved in Rocq). *)
Definition Set_ (ax : Axis.t) (b1 b2 : Body) (ov : number) : Z * vars :=
  let v1 := Axis.get ax (velocity b1) in
  let v2 := Axis.get ax (velocity b2) in
  let d1 := Axis.delta ax (position b1) (prev b1) in
  let d2 := Axis.delta ax (position b2) (prev b2) in
  let b1OnLeft := Axis.inOrder ax b1 b2 in
  BlockCheck
    {| axis := ax;
       body1 := b1;
       body2 := b2;
       body1Pushable := pushable b1;
       body1MovingLeft := ltb d1 0;
       body1MovingRight := gtb d1 0;
       body1Stationary := strictEq d1 0;
       body1OnLeft := b1OnLeft;
       body1FullImpact := v2 - v1 * Axis.get ax (bounce b1);
       body2Pushable := pushable b2;
       body2MovingLeft := ltb d2 0;
       body2MovingRight := gtb d2 0;
       body2Stationary := strictEq d2 0;
       body2OnLeft := negb b1OnLeft;
       body2FullImpact := v1 - v2 * Axis.get ax (bounce b2);
       body1MassImpact := None;
       body2MassImpact := None;
       overlap := Qabs ov |}.

(** The first half of [Run(side)]: the two overlap shares and the two
    impact velocities ([None] is [null]). *)
Definition shares (s : vars)
  : (number * number) * (option number * option number) :=
  if body1Pushable s && body2Pushable s then
    let totalMass := mass (body1 s) + mass (body2 s) in
    let body1OverlapShare := mass (body2 s) / totalMass in
    let body2OverlapShare := 1 - body1OverlapShare in
    ((body1OverlapShare, body2OverlapShare),
     (body1MassImpact s, body2MassImpact s))
  else if body1Pushable s then
    ((1, 0), (Some (body1FullImpact s), None))
  else if body2Pushable s then
    ((0, 1), (None, Some (body2FullImpact s)))
  else
    if negb (body1Stationary s) && negb (body2Stationary s) then
      let v1 := Axis.get (axis s) (velocity (body1 s)) in
      let v2 := Axis.get (axis s) (velocity (body2 s)) in
      let totalMass := mass (body1 s) + mass (body2 s) in
      let body1OverlapShare := mass (body2 s) / totalMass in
      let body2OverlapShare := 1 - body1OverlapShare in
      ((body1OverlapShare, body2OverlapShare),
       if body1MovingLeft s && body2MovingLeft s then
         (if body1OnLeft s then Some (Qmin v1 v2) else None,
          if body2OnLeft s then Some (Qmin v1 v2) else None)
       else if body1MovingRight s && body2MovingRight s then
         (if body1OnLeft s then None else Some (Qmax v1 v2),
          if body2OnLeft s then None else Some (Qmax v1 v2))
       else (Some 0, Some 0))
    else if body1Stationary s then ((0, 0), (None, Some 0))
    else if body2Stationary s then ((0, 0), (Some 0, None))
    else ((0, 0), (None, None)).

(** [Run(side)]. *)
Definition Run (side : Z) (s : vars) : outcome (bool * vars) :=
  let '((body1OverlapShare, body2OverlapShare), (body1Impact, body2Impact)) :=
    shares s in
  match side with
  | 0%Z | 3%Z =>
      let s := with_body1 s
        (Axis.displaceTo (axis s) (body1 s)
           (Some (overlap s * body1OverlapShare)) body1Impact
           (negb (body2Pushable s)) false) in
      let s := with_body2 s
        (Axis.displaceTo (axis s) (body2 s)
           (Some (- overlap s * body1OverlapShare)) body2Impact
           false (negb (body1Pushable s))) in
      Returned (true, s)
  | 1%Z | 2%Z =>
      let s := with_body1 s
        (Axis.displaceTo (axis s) (body1 s)
           (Some (- overlap s * body1OverlapShare)) body1Impact
           false (negb (body2Pushable s))) in
      let s := with_body2 s
        (Axis.displaceTo (axis s) (body2 s)
           (Some (overlap s * body1OverlapShare)) body2Impact
           (negb (body1Pushable s)) false) in
      Returned (true, s)
  | _ => Thrown "what side?"
  end.

(** [Check()]. *)
Definition Check (s : vars) : outcome (bool * vars) :=
  let v1 := Axis.get (axis s) (velocity (body1 s)) in
  let v2 := Axis.get (axis s) (velocity (body2 s)) in
  let vRel := v1 - v2 in
  let m1 := mass (body1 s) in
  let m2 := mass (body2 s) in
  let mTotal := m1 + m2 in
  let centerOfMassVelocity := (m1 * v1 + m2 * v2) / (m1 + m2) in
  let s := with_massImpacts s
    (centerOfMassVelocity
     - Axis.get (axis s) (bounce (body1 s)) * m2 * vRel / mTotal)
    (centerOfMassVelocity
     + Axis.get (axis s) (bounce (body2 s)) * m1 * vRel / mTotal) in
  if body1MovingLeft s && body2OnLeft s then Run 0 s
  else if body2MovingLeft s && body1OnLeft s then Run 1 s
  else if body1MovingRight s && body1OnLeft s then Run 2 s
  else if body2MovingRight s && body2OnLeft s then Run 3 s
  else Returned (false, s).

(** The riding-platform rule shared by the two functions below: the
    moving body [rider] is carried along the other axis by the
    immovable body [platform]. *)
Definition carry (ax : Axis.t) (platform rider : Body) : Body :=
  let delta :=
    Axis.get (Axis.other ax) (position platform)
    - Axis.get (Axis.other ax) (prev platform) in
  let fric := Axis.get (Axis.other ax) (friction platform) in
  let newOther := Axis.get (Axis.other ax) (position rider) + fric * delta in
  with_position rider (Axis.set (Axis.other ax) (position rider) newOther).

(** [RunImmovableBody1(blockedState)]. *)
Definition RunImmovableBody1 (blockedState : Z) (s : vars) : vars :=
  let s :=
    if (blockedState =? 1)%Z then
      with_body2 s
        (with_velocity (body2 s) (Axis.set (axis s) (velocity (body2 s)) 0))
    else if body1OnLeft s then
      with_body2 s
        (Axis.displaceTo (axis s) (body2 s) (Some (overlap s))
           (Some (body2FullImpact s)) true false)
    else
      with_body2 s
        (Axis.displaceTo (axis s) (body2 s) (Some (- overlap s))
           (Some (body2FullImpact s)) false true) in
  if moves (body1 s)
  then with_body2 s (carry (axis s) (body1 s) (body2 s))
  else s.

(** [RunImmovableBody2(blockedState)].  In the first branch the source
    calls [axis.get(body1.velocity, 0)], which reads the velocity and
    ignores the second argument: nothing is written. *)
Definition RunImmovableBody2 (blockedState : Z) (s : vars) : vars :=
  let s :=
    if (blockedState =? 2)%Z then
      let _ := Axis.get (axis s) (velocity (body1 s)) in
      s
    else if body2OnLeft s then
      with_body1 s
        (Axis.displaceTo (axis s) (body1 s) (Some (overlap s))
           (Some (body1FullImpact s)) true false)
    else
      with_body1 s
        (Axis.displaceTo (axis s) (body1 s) (Some (- overlap s))
           (Some (body1FullImpact s)) false true) in
  if moves (body2 s)
  then with_body1 s (carry (axis s) (body2 s) (body1 s))
  else s.

End Process.

(** ** The separation orchestrator *)

(** [Separate(axis, body1, body2, overlapOnly, bias)]: the returned
    boolean and the two bodies after the call. *)
Definition Separate (axis : Axis.t) (body1 body2 : Body)
    (overlapOnly : bool) (bias : number) : outcome (bool * (Body * Body)) :=
  let '(overlap, (body1, body2)) :=
    GetOverlap axis body1 body2 overlapOnly bias in
  let body1Immovable := immovable body1 in
  let body2Immovable := immovable body2 in
  if overlapOnly
     || strictEq overlap 0
     || (body1Immovable && body2Immovable)
     || Axis.getCustomSeparate axis body1
     || Axis.getCustomSeparate axis body2
  then
    Returned (negb (strictEq overlap 0) || (embedded body1 && embedded body2),
              (body1, body2))
  else
    let '(blockedState, s) := Process.Set_ axis body1 body2 overlap in
    if negb body1Immovable && negb body2Immovable then
      if (blockedState >? 0)%Z then Returned (true, Process.bodies s)
      else
        bind (Process.Check s)
             (fun r => Returned (fst r, Process.bodies (snd r)))
    else if body1Immovable then
      Returned (true, Process.bodies (Process.RunImmovableBody1 blockedState s))
    else if body2Immovable then
      Returned (true, Process.bodies (Process.RunImmovableBody2 blockedState s))
    else Returned (true, Process.bodies s).

(** ** Building bodies *)

Definition noEdges : Edges := edges (sided false false false false) true.

Definition allSides : Sided bool := sided true true true true.

(** A dynamic [w] x [h] box with no bounce and friction (1, 0), every
    collision side enabled, nothing touching or blocked yet. *)
Definition box (pos prv vel : Vector2) (w h m : number)
    (push imm mov : bool) : Body :=
  {| position := pos; prev := prv; velocity := vel;
     width := w; height := h;
     center := vec (x pos + w / 2) (y pos + h / 2);
     mass := m; bounce := vec 0 0; friction := vec 1 0;
     pushable := push; immovable := imm; moves := mov;
     physicsType := DYNAMIC_BODY;
     customSeparateX := false; customSeparateY := false;
     checkCollision := allSides;
     touching := noEdges; blocked := noEdges;
     overlapV := vec 0 0; embedded := false |}.

(** ** Vocabulary of the statements *)

(** The position and the velocity of [b'] are those of [b]. *)
Definition unmoved (b b' : Body) : Prop :=
  position b' = position b /\ velocity b' = velocity b.

(** The touching and blocked structs of [b'] are those of [b]. *)
Definition sameEdges (b b' : Body) : Prop :=
  touching b' = touching b /\ blocked b' = blocked b.

(** The two discards of step 5 of the overlap calculator: the tunnelling
    guard, and a collision side switched off.  [minBody] is the body the
    code takes as the lower one of the pair (the one with the larger
    displacement), [maxBody] the other. *)
Definition discards (ax : Axis.t) (minBody maxBody : Body) (oo : bool)
    (maxOverlap : number) : Prop :=
  (maxOverlap < Axis.rd ax (extents minBody) - Axis.lu ax (extents maxBody)
   /\ oo = false)
  \/ Axis.rd ax (checkCollision minBody) = false
  \/ Axis.lu ax (checkCollision maxBody) = false.

(** What [GetOverlap] does with an overlap that it accepts: [ov] is the
    overlap returned and [minBody'], [maxBody'] are the two bodies after
    the call.  The overlap is the measured one, [setEdges] is called on the
    touching struct of both bodies, and on a blocked struct only on a
    separation call (not overlap-only) against a static partner. *)
Definition accepts (ax : Axis.t) (minBody maxBody : Body) (oo : bool)
    (ov : number) (minBody' maxBody' : Body) : Prop :=
  ov = Axis.rd ax (extents minBody) - Axis.lu ax (extents maxBody)
  /\ touching minBody' = Axis.setEdges ax (touching minBody) false true
  /\ touching maxBody' = Axis.setEdges ax (touching maxBody) true false
  /\ blocked minBody'
     = (if isStatic (physicsType maxBody) && negb oo
        then Axis.setEdges ax (blocked minBody) false true
        else blocked minBody)
  /\ blocked maxBody'
     = (if isStatic (physicsType minBody) && negb oo
        then Axis.setEdges ax (blocked maxBody) true false
        else blocked maxBody).

(** The value [Separate] binds to [blockedState], when the call gets as far
    as [Process.Set]; [None] when it returns before. *)
Definition blockedStateIn (ax : Axis.t) (b1 b2 : Body) (oo : bool)
    (bias : number) : option Z :=
  let '(ov, (g1, g2)) := GetOverlap ax b1 b2 oo bias in
  if oo
     || strictEq ov 0
     || (immovable g1 && immovable g2)
     || Axis.getCustomSeparate ax g1
     || Axis.getCustomSeparate ax g2
  then None
  else Some (fst (Process.Set_ ax g1 g2 ov)).

(** The extents of [a] and [b] on the axis share no point. *)
Definition disjoint (ax : Axis.t) (a b : Body) : Prop :=
  Axis.rd ax (extents a) < Axis.lu ax (extents b)
  \/ Axis.rd ax (extents b) < Axis.lu ax (extents a).

(** ** Scenarios on the X axis

    Every box below is 10 x 10 and lies on the line [y = 0]. *)

(** [body.physicsType = STATIC_BODY]. *)
Definition asStatic (b : Body) : Body :=
  mkBody (position b) (prev b) (velocity b) (width b) (height b) (center b)
    (mass b) (bounce b) (friction b) (pushable b) (immovable b) (moves b)
    STATIC_BODY (customSeparateX b) (customSeparateY b)
    (checkCollision b) (touching b) (blocked b) (overlapV b) (embedded b).

Definition blockedRight : Edges := edges (sided false true false false) false.
Definition blockedLeft : Edges := edges (sided false false false true) false.

(** A pushable box of mass 1 that moved from 0 to 4 at velocity 5, and a
    pushable box of mass 3 at rest at 10: they overlap by 4. *)
Definition lightBox : Body :=
  box (vec 4 0) (vec 0 0) (vec 5 0) 10 10 1 true false true.
Definition heavyBox : Body :=
  box (vec 10 0) (vec 10 0) (vec 0 0) 10 10 3 true false true.

(** The box at rest, not pushable; and the moving box, not pushable. *)
Definition crate : Body :=
  box (vec 10 0) (vec 10 0) (vec 0 0) 10 10 3 false false true.
Definition ram : Body :=
  box (vec 4 0) (vec 0 0) (vec 5 0) 10 10 1 false false true.

(** A box at rest at 10, blocked on its right edge earlier in the step. *)
Definition anchored : Body :=
  with_blocked (box (vec 10 0) (vec 10 0) (vec 0 0) 10 10 1 true false true)
    blockedRight.

(** A static wall at 10. *)
Definition wall : Body :=
  asStatic (box (vec 10 0) (vec 10 0) (vec 0 0) 10 10 1 false true false).

(** A box at rest at 0 with velocity -2, blocked on its left edge earlier in
    the step, and an immovable platform that moved left from 10 to 9. *)
Definition rester : Body :=
  with_blocked (box (vec 0 0) (vec 0 0) (vec (-2) 0) 10 10 1 true false true)
    blockedLeft.
Definition platform : Body :=
  box (vec 9 0) (vec 10 0) (vec (-1) 0) 10 10 1 false true true.


(** A box at rest at 20, clear of [lightBox], which ends at 14. *)
Definition distant : Body :=
  box (vec 20 0) (vec 20 0) (vec 0 0) 10 10 1 true false true.

(** A box at rest at -20, which [lightBox] moves away from. *)
Definition behind : Body :=
  box (vec (-20) 0) (vec (-20) 0) (vec 0 0) 10 10 1 true false true.

(** Two boxes at rest that overlap by 5. *)
Definition stuckA : Body :=
  box (vec 0 0) (vec 0 0) (vec 0 0) 10 10 1 true false true.
Definition stuckB : Body :=
  box (vec 5 0) (vec 5 0) (vec 0 0) 10 10 1 true false true.

(** ** The legacy horizontal overlap calculator *)

(** The assignments [e.none = v], [e.right = v] and [e.left = v] on a
    touching or blocked struct. *)
Definition with_none (e : Edges) (v : bool) : Edges := edges (sides e) v.

Definition with_right (e : Edges) (v : bool) : Edges :=
  edges (sided (up e) v (down e) (left e)) (none e).

Definition with_left (e : Edges) (v : bool) : Edges :=
  edges (sided (up e) (right e) (down e) v) (none e).

(** A body together with the field [overlapX] that [GetOverlapX] writes. *)
Record LegacyBody : Type := legacy { core : Body; overlapX : number }.

(** Modelled from the spec: the getters [body.x] and [body.right], the
    left and right extents of the rectangle. *)
Definition body_x (b : Body) : number := left (extents b).
Definition body_right (b : Body) : number := right (extents b).

(** [GetOverlapX(body1, body2, overlapOnly, bias)]: the returned overlap and
    the two bodies after the call. *)
Definition GetOverlapX (body1 body2 : LegacyBody) (overlapOnly : bool)
    (bias : number) : number * (LegacyBody * LegacyBody) :=
  let b1 := core body1 in
  let b2 := core body2 in
  let b1dx := x (position b1) - x (prev b1) in
  let b2dx := x (position b2) - x (prev b2) in
  let maxOverlap := Qabs b1dx + Qabs b2dx + bias in
  let '(overlap, (b1, b2)) :=
    if strictEq b1dx b2dx then
      (0, (with_embedded b1 true, with_embedded b2 true))
    else if gtb b1dx b2dx then
      let overlap := body_right b1 - body_x b2 in
      if (gtb overlap maxOverlap && negb overlapOnly)
         || negb (right (checkCollision b1))
         || negb (left (checkCollision b2))
      then (0, (b1, b2))
      else
        let b1 :=
          with_touching b1 (with_right (with_none (touching b1) false) true) in
        let b2 :=
          with_touching b2 (with_left (with_none (touching b2) false) true) in
        let b1 :=
          if isStatic (physicsType b2) && negb overlapOnly
          then with_blocked b1
                 (with_right (with_none (blocked b1) false) true)
          else b1 in
        let b2 :=
          if isStatic (physicsType b1) && negb overlapOnly
          then with_blocked b2
                 (with_left (with_none (blocked b2) false) true)
          else b2 in
        (overlap, (b1, b2))
    else if ltb b1dx b2dx then
      let overlap := body_x b1 - width b2 - body_x b2 in
      if (gtb (- overlap) maxOverlap && negb overlapOnly)
         || negb (left (checkCollision b1))
         || negb (right (checkCollision b2))
      then (0, (b1, b2))
      else
        let b1 :=
          with_touching b1 (with_left (with_none (touching b1) false) true) in
        let b2 :=
          with_touching b2 (with_right (with_none (touching b2) false) true) in
        let b1 :=
          if isStatic (physicsType b2) && negb overlapOnly
          then with_blocked b1
                 (with_left (with_none (blocked b1) false) true)
          else b1 in
        let b2 :=
          if isStatic (physicsType b1) && negb overlapOnly
          then with_blocked b2
                 (with_right (with_none (blocked b2) false) true)
          else b2 in
        (overlap, (b1, b2))
    else (0, (b1, b2)) in
  (overlap, (legacy b1 overlap, legacy b2 overlap)).

(** ** The exports of the package *)

Module Arcade.

(** [GetOverlap.bind(undefined, Axis.X)] and [GetOverlap.bind(undefined,
    Axis.Y)]. *)
Definition GetOverlapX := GetOverlap Axis.X.
Definition GetOverlapY := GetOverlap Axis.Y.

(** [Separate.bind(undefined, Axis.X)] and [Separate.bind(undefined,
    Axis.Y)]. *)
Definition SeparateX := Separate Axis.X.
Definition SeparateY := Separate Axis.Y.

End Arcade.

(** ** Further vocabulary *)

(** [none] is true exactly when no side is set. *)
Definition noneConsistent (e : Edges) : Prop :=
  none e = negb (up e || right e || down e || left e).

(** Every side that is set in [e] is set in [e']. *)
Definition edgesKept (e e' : Edges) : Prop :=
  (up e = true -> up e' = true)
  /\ (right e = true -> right e' = true)
  /\ (down e = true -> down e' = true)
  /\ (left e = true -> left e' = true).

(** The fields that the core only reads have the same value in [b']
    as in [b]. *)
Definition sameReadOnly (b b' : Body) : Prop :=
  prev b' = prev b
  /\ width b' = width b
  /\ height b' = height b
  /\ mass b' = mass b
  /\ bounce b' = bounce b
  /\ friction b' = friction b
  /\ pushable b' = pushable b
  /\ immovable b' = immovable b
  /\ moves b' = moves b
  /\ physicsType b' = physicsType b
  /\ customSeparateX b' = customSeparateX b
  /\ customSeparateY b' = customSeparateY b
  /\ checkCollision b' = checkCollision b.

(** The touching and blocked flags set in [b] are still set in [b'], and
    an embedded [b] stays embedded. *)
Definition flagsKept (b b' : Body) : Prop :=
  edgesKept (touching b) (touching b')
  /\ edgesKept (blocked b) (blocked b')
  /\ (embedded b = true -> embedded b' = true).

(** Both edge structs of [b] have a consistent [none]. *)
Definition bodyConsistent (b : Body) : Prop :=
  noneConsistent (touching b) /\ noneConsistent (blocked b).

(** Consistency of [b] carries over to [b']. *)
Definition keepsConsistent (b b' : Body) : Prop :=
  bodyConsistent b -> bodyConsistent b'.

(** A relation between bodies, on both bodies of the process. *)
Definition onBoth (R : Body -> Body -> Prop) (s s' : Process.vars) : Prop :=
  R (Process.body1 s) (Process.body1 s')
  /\ R (Process.body2 s) (Process.body2 s').

(** The axial displacement of a body in this step. *)
Definition displacement (ax : Axis.t) (b : Body) : number :=
  Axis.delta ax (position b) (prev b).


(** ** Further scenarios *)

(** A box that moved left from 8 to 4, away from [heavyBox] at 10. *)
Definition retreating : Body :=
  box (vec 4 0) (vec 8 0) (vec (-4) 0) 10 10 1 true false true.

(** The variables of the process as [Set] assigns them, before it calls
    [BlockCheck]. *)
Definition assigned (ax : Axis.t) (b1 b2 : Body) (ov : number)
    : Process.vars :=
  let v1 := Axis.get ax (velocity b1) in
  let v2 := Axis.get ax (velocity b2) in
  let d1 := Axis.delta ax (position b1) (prev b1) in
  let d2 := Axis.delta ax (position b2) (prev b2) in
  let b1OnLeft := Axis.inOrder ax b1 b2 in
  {| Process.axis := ax;
     Process.body1 := b1;
     Process.body2 := b2;
     Process.body1Pushable := pushable b1;
     Process.body1MovingLeft := ltb d1 0;
     Process.body1MovingRight := gtb d1 0;
     Process.body1Stationary := strictEq d1 0;
     Process.body1OnLeft := b1OnLeft;
     Process.body1FullImpact := v2 - v1 * Axis.get ax (bounce b1);
     Process.body2Pushable := pushable b2;
     Process.body2MovingLeft := ltb d2 0;
     Process.body2MovingRight := gtb d2 0;
     Process.body2Stationary := strictEq d2 0;
     Process.body2OnLeft := negb b1OnLeft;
     Process.body2FullImpact := v1 - v2 * Axis.get ax (bounce b2);
     Process.body1MassImpact := None;
     Process.body2MassImpact := None;
     Process.overlap := Qabs ov |}.

(** The velocity of the centre of momentum of a pair along the axis. *)
Definition centerOfMomentum (ax : Axis.t) (b1 b2 : Body) : number :=
  (mass b1 * Axis.get ax (velocity b1) + mass b2 * Axis.get ax (velocity b2))
  / (mass b1 + mass b2).

(** [body.bounce = v]. *)
Definition withBounce (b : Body) (v : Vector2) : Body :=
  mkBody (position b) (prev b) (velocity b) (width b) (height b) (center b)
    (mass b) v (friction b) (pushable b) (immovable b) (moves b)
    (physicsType b) (customSeparateX b) (customSeparateY b)
    (checkCollision b) (touching b) (blocked b) (overlapV b) (embedded b).

(** [lightBox] and [heavyBox] with a bounce of one half on the X axis. *)
Definition bouncyLight : Body := withBounce lightBox (vec (1 # 2) 0).
Definition bouncyHeavy : Body := withBounce heavyBox (vec (1 # 2) 0).

(** [body.friction = v] and [body.prev = v]. *)
Definition withFriction (b : Body) (v : Vector2) : Body :=
  mkBody (position b) (prev b) (velocity b) (width b) (height b) (center b)
    (mass b) (bounce b) v (pushable b) (immovable b) (moves b)
    (physicsType b) (customSeparateX b) (customSeparateY b)
    (checkCollision b) (touching b) (blocked b) (overlapV b) (embedded b).

(** An immovable lift next to [lightBox]: it stands at 10 on the X axis
    and rose from 3 to 0 on the Y axis, with a friction of one half on Y. *)
Definition lift : Body :=
  withFriction
    (box (vec 10 0) (vec 10 3) (vec 0 (-3)) 10 10 1 false true true)
    (vec 1 (1 # 2)).

(** A box that is not pushable and moved left from 12 to 10, toward [ram]. *)
Definition counter : Body :=
  box (vec 10 0) (vec 12 0) (vec (-2) 0) 10 10 1 false false true.

(** ** Proof support *)

(** Case analysis on the condition of a conditional in the goal. *)
Ltac case_if :=
  match goal with
  | |- context [if ?c then _ else _] => destruct c eqn:?
  end.

Lemma strictEq_true (a b : number) : strictEq a b = true <-> a == b.
Proof. apply Qeq_bool_iff. Qed.

Lemma strictEq_false (a b : number) : strictEq a b = false <-> ~ a == b.
Proof.
  unfold strictEq. split.
  - apply Qeq_bool_neq.
  - intros H. destruct (Qeq_bool a b) eqn:E; [|reflexivity].
    apply Qeq_bool_iff in E. contradiction.
Qed.

Lemma ltb_true (a b : number) : ltb a b = true <-> a < b.
Proof.
  unfold ltb. rewrite negb_true_iff. split.
  - intros H. apply Qnot_le_lt. intros L. apply Qle_bool_iff in L. congruence.
  - intros H. destruct (Qle_bool b a) eqn:E; [|reflexivity].
    apply Qle_bool_iff in E. exfalso. apply (Qlt_not_le _ _ H E).
Qed.

Lemma ltb_false (a b : number) : ltb a b = false <-> b <= a.
Proof.
  unfold ltb. rewrite negb_false_iff. apply Qle_bool_iff.
Qed.

(** ** Basic facts about the projector *)

Lemma get_set (ax : Axis.t) (v : Vector2) (a : number) :
  Axis.get ax (Axis.set ax v a) = a.
Proof. destruct ax; reflexivity. Qed.

Lemma get_set_other (ax : Axis.t) (v : Vector2) (a : number) :
  Axis.get ax (Axis.set (Axis.other ax) v a) = Axis.get ax v.
Proof. destruct ax; reflexivity. Qed.

(** On either axis [setEdges] leaves [left] and [right] as they were. *)
Lemma setEdges_left_right (ax : Axis.t) (v : Edges) (l r : bool) :
  left (Axis.setEdges ax v l r) = left v
  /\ right (Axis.setEdges ax v l r) = right v.
Proof. destruct ax; split; reflexivity. Qed.

Lemma unmoved_refl (b : Body) : unmoved b b.
Proof. split; reflexivity. Qed.

(** ** Facts about the overlap calculator *)

(** [GetOverlap] writes [touching], [blocked], [overlapV] and [embedded]
    only: it moves no body, and the flags that the orchestrator reads
    afterwards are those of the arguments. *)
Lemma GetOverlap_frame (ax : Axis.t) (b1 b2 : Body) (oo : bool) (bias : number) :
  let r := GetOverlap ax b1 b2 oo bias in
  (unmoved b1 (fst (snd r)) /\ immovable (fst (snd r)) = immovable b1)
  /\ (unmoved b2 (snd (snd r)) /\ immovable (snd (snd r)) = immovable b2).
Proof.
  unfold GetOverlap, unmoved.
  repeat (case_if; cbn [fst snd]); cbn; repeat split; reflexivity.
Qed.

(** C9. After any call to [GetOverlap] on an axis, the two bodies'
    [overlapV] components on that axis are the same number, and that number
    is the value returned. *)
Theorem overlapV_symmetric (ax : Axis.t) (b1 b2 : Body) (oo : bool)
    (bias : number) :
  let r := GetOverlap ax b1 b2 oo bias in
  Axis.get ax (overlapV (fst (snd r))) = Axis.get ax (overlapV (snd (snd r)))
  /\ Axis.get ax (overlapV (fst (snd r))) = fst r
  /\ Axis.get ax (overlapV (snd (snd r))) = fst r.
Proof.
  unfold GetOverlap.
  repeat (case_if; cbn [fst snd]); cbn; rewrite ?get_set; repeat split;
    reflexivity.
Qed.

(** C8. When the two axial displacements are equal ([d1 == d2], which
    includes two stationary bodies), [GetOverlap] marks both bodies as
    embedded, sets both [overlapV] components on the axis to zero and
    returns 0. *)
Theorem equal_displacement_embeds (ax : Axis.t) (b1 b2 : Body) (oo : bool)
    (bias : number) :
  Axis.delta ax (position b1) (prev b1) == Axis.delta ax (position b2) (prev b2) ->
  let r := GetOverlap ax b1 b2 oo bias in
  embedded (fst (snd r)) = true
  /\ embedded (snd (snd r)) = true
  /\ Axis.get ax (overlapV (fst (snd r))) == 0
  /\ Axis.get ax (overlapV (snd (snd r))) == 0
  /\ fst r == 0.
Proof.
  intros Hd. apply strictEq_true in Hd. unfold Axis.delta in Hd.
  unfold GetOverlap. rewrite Hd. cbn. rewrite !get_set.
  repeat split; reflexivity.
Qed.

Lemma discards_condition (ax : Axis.t) (minBody maxBody : Body) (oo : bool)
    (maxOverlap : number) :
  discards ax minBody maxBody oo maxOverlap ->
  (gtb (Axis.rd ax (extents minBody) - Axis.lu ax (extents maxBody)) maxOverlap
   && negb oo)
  || negb (Axis.rd ax (checkCollision minBody))
  || negb (Axis.lu ax (checkCollision maxBody)) = true.
Proof.
  intros [[Hgt Hoo] | [Hrd | Hlu]].
  - unfold gtb. apply ltb_true in Hgt. rewrite Hgt, Hoo. reflexivity.
  - rewrite Hrd. cbn. apply orb_true_iff. left. apply orb_true_r.
  - rewrite Hlu. cbn. apply orb_true_r.
Qed.

(** ** Facts about the resolution process and the orchestrator *)




(** C10. When [GetOverlap] returns 0, [Separate] leaves the bodies as
    [GetOverlap] leaves them, with every position and velocity as before
    the call, and returns whether both of them are embedded then: [true]
    when both embedded flags are set, which is the case whenever the
    equal-displacement branch fired, and [false] when either flag is not
    set. *)
Theorem zero_overlap_reports_embedding (ax : Axis.t) (b1 b2 : Body)
    (oo : bool) (bias : number) :
  let r := GetOverlap ax b1 b2 oo bias in
  fst r == 0 ->
  Separate ax b1 b2 oo bias
  = Returned (embedded (fst (snd r)) && embedded (snd (snd r)), snd r)
  /\ unmoved b1 (fst (snd r)) /\ unmoved b2 (snd (snd r))
  /\ (Axis.delta ax (position b1) (prev b1)
      == Axis.delta ax (position b2) (prev b2) ->
      Separate ax b1 b2 oo bias = Returned (true, snd r))
  /\ (embedded (fst (snd r)) = false \/ embedded (snd (snd r)) = false ->
      Separate ax b1 b2 oo bias = Returned (false, snd r)).
Proof.
  intros r H0.
  assert (E : Separate ax b1 b2 oo bias
              = Returned (embedded (fst (snd r)) && embedded (snd (snd r)),
                          snd r)).
  { subst r. unfold Separate.
    destruct (GetOverlap ax b1 b2 oo bias) as [ov [g1 g2]].
    cbn [fst snd] in *.
    apply strictEq_true in H0. rewrite H0.
    rewrite orb_true_r. cbn [orb negb]. reflexivity. }
  pose proof (GetOverlap_frame ax b1 b2 oo bias) as F. cbv zeta in F.
  fold r in F. destruct F as [[Hu1 _] [Hu2 _]].
  split; [exact E|]. split; [exact Hu1|]. split; [exact Hu2|].
  split.
  - intros Hd. rewrite E. apply strictEq_true in Hd.
    unfold Axis.delta in Hd. subst r. unfold GetOverlap. rewrite Hd.
    reflexivity.
  - intros [Hf | Hf]; rewrite E, Hf; rewrite ?andb_false_r; reflexivity.
Qed.

Lemma condition_discards (ax : Axis.t) (minBody maxBody : Body) (oo : bool)
    (maxOverlap : number) :
  (gtb (Axis.rd ax (extents minBody) - Axis.lu ax (extents maxBody)) maxOverlap
   && negb oo)
  || negb (Axis.rd ax (checkCollision minBody))
  || negb (Axis.lu ax (checkCollision maxBody)) = true ->
  discards ax minBody maxBody oo maxOverlap.
Proof.
  unfold discards. intros H.
  apply orb_true_iff in H. destruct H as [H | H].
  - apply orb_true_iff in H. destruct H as [H | H].
    + apply andb_true_iff in H. destruct H as [Hg Ho]. left. split.
      * apply ltb_true. exact Hg.
      * apply negb_true_iff. exact Ho.
    + right. left. apply negb_true_iff. exact H.
  - right. right. apply negb_true_iff. exact H.
Qed.

(** C6, as the code has it. [GetOverlap] returns 0 and leaves both bodies'
    touching and blocked structs as they were whenever the two axial
    displacements are equal, or the measured overlap is discarded by the
    tunnelling guard or by a collision side that is switched off.  Whether
    the extents intersect is not tested: in every other case the overlap
    is accepted, that is, [GetOverlap] returns the measured overlap, calls
    [setEdges] on the touching struct of both bodies, and calls it on a
    blocked struct only on a separation call against a static partner. *)
Theorem discarded_overlap_is_noop (ax : Axis.t) (b1 b2 : Body) (oo : bool)
    (bias : number) :
  let d1 := Axis.delta ax (position b1) (prev b1) in
  let d2 := Axis.delta ax (position b2) (prev b2) in
  let maxOverlap := Qabs d1 + Qabs d2 + bias in
  let r := GetOverlap ax b1 b2 oo bias in
  (d1 == d2
   \/ (d2 < d1 /\ discards ax b1 b2 oo maxOverlap)
   \/ (d1 < d2 /\ discards ax b2 b1 oo maxOverlap) ->
   fst r == 0 /\ sameEdges b1 (fst (snd r)) /\ sameEdges b2 (snd (snd r)))
  /\ (d2 < d1 -> ~ discards ax b1 b2 oo maxOverlap ->
      accepts ax b1 b2 oo (fst r) (fst (snd r)) (snd (snd r)))
  /\ (d1 < d2 -> ~ discards ax b2 b1 oo maxOverlap ->
      accepts ax b2 b1 oo (fst r) (snd (snd r)) (fst (snd r))).
Proof.
  intros d1 d2 maxOverlap r. subst r.
  unfold GetOverlap, Axis.delta in *. fold d1 d2. fold maxOverlap.
  split; [|split].
  - intros H. destruct (strictEq d1 d2) eqn:Eeq.
    + cbn. repeat split; reflexivity.
    + apply strictEq_false in Eeq.
      destruct H as [H | [[Hlt Hd] | [Hlt Hd]]].
      * contradiction.
      * assert (Hsw : ltb d1 d2 = false)
          by (apply ltb_false, Qlt_le_weak, Hlt).
        rewrite Hsw. rewrite (discards_condition _ _ _ _ _ Hd).
        cbn. repeat split; reflexivity.
      * assert (Hsw : ltb d1 d2 = true) by (apply ltb_true, Hlt).
        rewrite Hsw. rewrite (discards_condition _ _ _ _ _ Hd).
        cbn. repeat split; reflexivity.
  - intros Hlt Hn.
    assert (Eeq : strictEq d1 d2 = false).
    { apply strictEq_false. intros E. rewrite E in Hlt.
      exact (Qlt_irrefl _ Hlt). }
    assert (Hsw : ltb d1 d2 = false) by (apply ltb_false, Qlt_le_weak, Hlt).
    rewrite Eeq, Hsw.
    match goal with
    | |- context [if ?c then (0, _) else _] => destruct c eqn:C
    end.
    + exfalso. apply Hn. apply condition_discards. exact C.
    + unfold accepts. cbv zeta.
      cbn [physicsType with_touching with_blocked fst snd].
      destruct (isStatic (physicsType b2) && negb oo);
        cbn [physicsType with_touching with_blocked fst snd];
        destruct (isStatic (physicsType b1) && negb oo); cbn;
        repeat split; reflexivity.
  - intros Hlt Hn.
    assert (Eeq : strictEq d1 d2 = false).
    { apply strictEq_false. intros E. rewrite E in Hlt.
      exact (Qlt_irrefl _ Hlt). }
    assert (Hsw : ltb d1 d2 = true) by (apply ltb_true, Hlt).
    rewrite Eeq, Hsw.
    match goal with
    | |- context [if ?c then (0, _) else _] => destruct c eqn:C
    end.
    + exfalso. apply Hn. apply condition_discards. exact C.
    + unfold accepts. cbv zeta.
      cbn [physicsType with_touching with_blocked fst snd].
      destruct (isStatic (physicsType b1) && negb oo);
        cbn [physicsType with_touching with_blocked fst snd];
        destruct (isStatic (physicsType b2) && negb oo); cbn;
        repeat split; reflexivity.
Qed.

(** [RunImmovableBody2] writes [body1] only. *)
Lemma RunImmovableBody2_body2 (bs : Z) (s : Process.vars) :
  Process.body2 (Process.RunImmovableBody2 bs s) = Process.body2 s.
Proof.
  unfold Process.RunImmovableBody2.
  repeat case_if; reflexivity.
Qed.

(** [BlockCheck] writes [body2] only when it reports block state 2. *)
Lemma BlockCheck_body2 (s : Process.vars) :
  fst (Process.BlockCheck s) <> 2%Z ->
  Process.body2 (snd (Process.BlockCheck s)) = Process.body2 s.
Proof.
  unfold Process.BlockCheck.
  repeat (case_if; cbn [fst snd]); cbn; intros H; try reflexivity;
    exfalso; apply H; reflexivity.
Qed.

(** With block state 2, [RunImmovableBody2] leaves the velocity of [body1]
    as it finds it, whatever the variables hold. *)
Lemma RunImmovableBody2_blocked_velocity (s : Process.vars) :
  velocity (Process.body1 (Process.RunImmovableBody2 2 s))
  = velocity (Process.body1 s).
Proof.
  unfold Process.RunImmovableBody2. cbn [Z.eqb Pos.eqb].
  case_if; reflexivity.
Qed.

(** The counterpart of the theorem on [body1] for an immovable [body2]:
    it keeps its position and velocity unless [BlockCheck] reports block
    state 2. *)
Lemma immovable_body2_unmoved (ax : Axis.t) (b1 b2 : Body) (oo : bool)
    (bias : number) :
  immovable b2 = true ->
  blockedStateIn ax b1 b2 oo bias <> Some 2%Z ->
  exists res b1' b2',
    Separate ax b1 b2 oo bias = Returned (res, (b1', b2'))
    /\ unmoved b2 b2'.
Proof.
  intros Himm Hbs.
  unfold Separate. unfold blockedStateIn in Hbs.
  pose proof (GetOverlap_frame ax b1 b2 oo bias) as F. cbv zeta in F.
  destruct (GetOverlap ax b1 b2 oo bias) as [ov [g1 g2]].
  cbn [fst snd] in F. destruct F as [_ [Hu Hi]].
  rewrite Himm in Hi.
  case_if.
  - eexists _, _, _. split; [reflexivity | exact Hu].
  - pose proof (BlockCheck_body2) as B.
    unfold Process.Set_ in *.
    match type of Hbs with
    | context [Process.BlockCheck ?s0] =>
        specialize (B s0); set (s := s0) in *
    end.
    destruct (Process.BlockCheck s) as [bs s'] eqn:E.
    cbn [fst snd] in *.
    assert (Hne : bs <> 2%Z) by (intros ->; apply Hbs; reflexivity).
    specialize (B Hne).
    rewrite Hi in *.
    destruct (immovable g1) eqn:Hi1.
    + rewrite !orb_true_r in *. cbn in *. discriminate.
    + cbn [negb andb].
      eexists _, _, _. split; [reflexivity|].
      cbn [Process.bodies]. rewrite RunImmovableBody2_body2, B.
      exact Hu.
Qed.

(** [displaceTo] with an offset adds it to the projected position, and with
    a velocity value sets the projected velocity. *)
Lemma displaceTo_position (ax : Axis.t) (b : Body) (o : number)
    (v : option number) (l r : bool) :
  position (Axis.displaceTo ax b (Some o) v l r) = Axis.inc ax (position b) o.
Proof.
  unfold Axis.displaceTo. destruct v; case_if; reflexivity.
Qed.

Lemma displaceTo_velocity (ax : Axis.t) (b : Body) (o : option number)
    (v : number) (l r : bool) :
  velocity (Axis.displaceTo ax b o (Some v) l r) = Axis.set ax (velocity b) v.
Proof.
  unfold Axis.displaceTo. destruct o; case_if; reflexivity.
Qed.

Lemma displaceTo_no_velocity (ax : Axis.t) (b : Body) (o : option number)
    (l r : bool) :
  velocity (Axis.displaceTo ax b o None l r) = velocity b.
Proof.
  unfold Axis.displaceTo. destruct o; case_if; reflexivity.
Qed.

(** What [Run] does to the positions when both bodies are pushable: both
    offsets are built from [body1]'s share [m2 / (m1 + m2)]; the share
    [1 - m2 / (m1 + m2)] computed for [body2] is not used. *)
Lemma Run_both_pushable_positions (side : Z) (s : Process.vars) :
  Process.body1Pushable s = true ->
  Process.body2Pushable s = true ->
  (0 <= side <= 3)%Z ->
  let ax := Process.axis s in
  let share1 :=
    mass (Process.body2 s) / (mass (Process.body1 s) + mass (Process.body2 s)) in
  let toward := if ((side =? 0) || (side =? 3))%Z then 1 else -1 in
  exists s',
    Process.Run side s = Returned (true, s')
    /\ Axis.get ax (position (Process.body1 s'))
       == Axis.get ax (position (Process.body1 s))
          + toward * (Process.overlap s * share1)
    /\ Axis.get ax (position (Process.body2 s'))
       == Axis.get ax (position (Process.body2 s))
          - toward * (Process.overlap s * share1).
Proof.
  intros H1 H2 Hside ax share1 toward. subst ax share1 toward.
  unfold Process.Run, Process.shares. rewrite H1, H2. cbn [andb].
  assert (Hs : side = 0%Z \/ side = 1%Z \/ side = 2%Z \/ side = 3%Z) by lia.
  destruct Hs as [-> | [-> | [-> | ->]]]; cbn [Z.eqb Pos.eqb orb];
    eexists; (split; [reflexivity|]); cbn [Process.body1 Process.body2
      Process.with_body1 Process.with_body2 Process.axis Process.overlap];
    rewrite !displaceTo_position; unfold Axis.inc; rewrite !get_set;
    split; ring.
Qed.

(** [Separate] returns on every input: [Check] calls [Run] with a side
    between 0 and 3 only, so the assertion in [Run] never fires. *)
Lemma Separate_returns (ax : Axis.t) (b1 b2 : Body) (oo : bool)
    (bias : number) :
  exists res b1' b2', Separate ax b1 b2 oo bias = Returned (res, (b1', b2')).
Proof.
  unfold Separate.
  destruct (GetOverlap ax b1 b2 oo bias) as [ov [g1 g2]].
  case_if; [eexists _, _, _; reflexivity|].
  destruct (Process.Set_ ax g1 g2 ov) as [bs s].
  repeat (case_if; try (eexists _, _, _; reflexivity)).
  unfold Process.Check, Process.Run.
  destruct (Process.shares _) as [[sh1 sh2] [i1 i2]].
  repeat case_if; eexists _, _, _; reflexivity.
Qed.

(** ** The properties on the scenarios *)



(** C2 fails on the code: with masses 1 and 3 and an overlap of 4, [body1]
    moves back by 4 * 3/4 as the claim says, but [body2] moves forward by
    the same 4 * 3/4, not by its own share 4 * 1/4. *)
Theorem both_pushable_body2_uses_body1_share :
  fst (GetOverlap Axis.X lightBox heavyBox false 4) == 4
  /\ exists b1' b2',
       Separate Axis.X lightBox heavyBox false 4 = Returned (true, (b1', b2'))
       /\ x (position b1')
          == x (position lightBox)
             - 4 * (mass heavyBox / (mass lightBox + mass heavyBox))
       /\ x (position b2')
          == x (position heavyBox)
             + 4 * (mass heavyBox / (mass lightBox + mass heavyBox))
       /\ ~ x (position b2')
            == x (position heavyBox)
               + 4 * (mass lightBox / (mass lightBox + mass heavyBox)).
Proof.
  split; [vm_compute; reflexivity|].
  eexists _, _. split; [vm_compute; reflexivity|].
  repeat split; vm_compute; try reflexivity; intros H; discriminate H.
Qed.

(** C3 fails on the code, both ways round.  When only [body1] is pushable
    ([lightBox] against [crate]), the body that is not pushable is moved by
    the whole overlap as well.  When only [body2] is pushable ([ram] against
    [heavyBox]), no body is moved at all: the pushable body only receives
    its full-impact velocity. *)
Theorem one_pushable_displacement :
  (fst (GetOverlap Axis.X lightBox crate false 4) == 4
   /\ exists b1' b2',
        Separate Axis.X lightBox crate false 4 = Returned (true, (b1', b2'))
        /\ x (position b1') == x (position lightBox) - 4
        /\ x (position b2') == x (position crate) + 4)
  /\ (fst (GetOverlap Axis.X ram heavyBox false 4) == 4
      /\ exists b1' b2',
           Separate Axis.X ram heavyBox false 4 = Returned (true, (b1', b2'))
           /\ x (position b1') == x (position ram)
           /\ x (position b2') == x (position heavyBox)
           /\ x (velocity b2') == x (velocity ram)).
Proof.
  split; (split; [vm_compute; reflexivity|]);
    eexists _, _; (split; [vm_compute; reflexivity|]);
    repeat split; vm_compute; reflexivity.
Qed.

(** C4 fails on the code: [lightBox] as [body2] moved right and is the
    lower-side body, and [anchored] as [body1] is blocked on its right
    edge, yet [BlockCheck] reports 0 and moves nothing; the resolution that
    follows in [Separate] pushes [anchored] further right. *)
Theorem BlockCheck_misses_body2_moving_right :
  let r := Process.Set_ Axis.X anchored lightBox 4 in
  Process.body2MovingRight (snd r) = true
  /\ Process.body2OnLeft (snd r) = true
  /\ Axis.rd Axis.X (blocked (Process.body1 (snd r))) = true
  /\ fst r = 0%Z
  /\ Process.bodies (snd r) = (anchored, lightBox)
  /\ blockedStateIn Axis.X anchored lightBox false 4 = Some 0%Z
  /\ exists b1' b2',
       Separate Axis.X anchored lightBox false 4 = Returned (true, (b1', b2'))
       /\ x (position anchored) < x (position b1').
Proof.
  repeat split; try (vm_compute; reflexivity).
  eexists _, _. split; vm_compute; reflexivity.
Qed.

(** C5 fails on the code: on the X axis an accepted overlap sets the
    [down] flag of the min body and the [up] flag of the max body, in
    [touching] and, against a static partner, in [blocked]; the [right]
    and [left] flags stay unset. *)
Theorem X_setEdges_writes_up_down :
  let r := GetOverlap Axis.X lightBox wall false 4 in
  fst r == 4
  /\ right (touching (fst (snd r))) = false
  /\ down (touching (fst (snd r))) = true
  /\ left (touching (snd (snd r))) = false
  /\ up (touching (snd (snd r))) = true
  /\ right (blocked (fst (snd r))) = false
  /\ down (blocked (fst (snd r))) = true.
Proof.
  vm_compute. repeat split; reflexivity.
Qed.

(** C6 fails as stated: [lightBox] ends at 14 and [distant] starts at 20,
    yet [GetOverlap] returns -6 and sets touching flags on both. *)
Lemma disjoint_extents_still_touch :
  disjoint Axis.X lightBox distant
  /\ ~ fst (GetOverlap Axis.X lightBox distant false 4) == 0
  /\ fst (GetOverlap Axis.X lightBox distant false 4) == -6
  /\ touching (fst (snd (GetOverlap Axis.X lightBox distant false 4)))
     <> touching lightBox
  /\ touching (snd (snd (GetOverlap Axis.X lightBox distant false 4)))
     <> touching distant.
Proof.
  split; [left; vm_compute; reflexivity|].
  repeat split; vm_compute; try reflexivity; intros H; discriminate H.
Qed.

Lemma discarded_overlap_is_noop_witness :
  (disjoint Axis.X lightBox behind
   /\ (Axis.delta Axis.X (position behind) (prev behind)
       < Axis.delta Axis.X (position lightBox) (prev lightBox)
       /\ discards Axis.X lightBox behind false (4 + 0 + 4))
   /\ let r := GetOverlap Axis.X lightBox behind false 4 in
      fst r == 0
      /\ sameEdges lightBox (fst (snd r)) /\ sameEdges behind (snd (snd r)))
  /\ (disjoint Axis.X lightBox distant
      /\ Axis.delta Axis.X (position distant) (prev distant)
         < Axis.delta Axis.X (position lightBox) (prev lightBox)
      /\ ~ discards Axis.X lightBox distant false (4 + 0 + 4)
      /\ let r := GetOverlap Axis.X lightBox distant false 4 in
         accepts Axis.X lightBox distant false
           (fst r) (fst (snd r)) (snd (snd r))).
Proof.
  split.
  - assert (Hd : discards Axis.X lightBox behind false
                   (Qabs (Axis.delta Axis.X (position lightBox) (prev lightBox))
                    + Qabs (Axis.delta Axis.X (position behind) (prev behind))
                    + 4)).
    { left. split; [vm_compute; reflexivity | reflexivity]. }
    split; [right; vm_compute; reflexivity|].
    split; [split; [vm_compute; reflexivity | exact Hd]|].
    apply (proj1 (discarded_overlap_is_noop Axis.X lightBox behind false 4)).
    right. left. split; [vm_compute; reflexivity | exact Hd].
  - assert (Hn : ~ discards Axis.X lightBox distant false
                     (Qabs (Axis.delta Axis.X (position lightBox)
                              (prev lightBox))
                      + Qabs (Axis.delta Axis.X (position distant)
                                (prev distant))
                      + 4)).
    { intros [[H _] | [H | H]]; vm_compute in H; discriminate H. }
    split; [left; vm_compute; reflexivity|].
    split; [vm_compute; reflexivity|].
    split; [exact Hn|].
    apply (proj1 (proj2 (discarded_overlap_is_noop Axis.X lightBox distant
                           false 4))).
    + vm_compute. reflexivity.
    + exact Hn.
Defined.

(** C7 fails on the code: [platform] is immovable and [BlockCheck] reports
    it as blocked (block state 2), yet [rester] keeps its velocity of -2. *)
Theorem RunImmovableBody2_keeps_velocity :
  immovable platform = true
  /\ immovable rester = false
  /\ blockedStateIn Axis.X rester platform false 4 = Some 2%Z
  /\ exists b1' b2',
       Separate Axis.X rester platform false 4 = Returned (true, (b1', b2'))
       /\ x (velocity b1') == -2
       /\ ~ x (velocity b1') == 0.
Proof.
  repeat split; try (vm_compute; reflexivity).
  eexists _, _. split; [vm_compute; reflexivity|].
  split; vm_compute; [reflexivity | intros H; discriminate H].
Qed.

Lemma equal_displacement_embeds_witness :
  Axis.delta Axis.X (position stuckA) (prev stuckA)
  == Axis.delta Axis.X (position stuckB) (prev stuckB)
  /\
  let r := GetOverlap Axis.X stuckA stuckB false 4 in
  embedded (fst (snd r)) = true
  /\ embedded (snd (snd r)) = true
  /\ Axis.get Axis.X (overlapV (fst (snd r))) == 0
  /\ Axis.get Axis.X (overlapV (snd (snd r))) == 0
  /\ fst r == 0.
Proof.
  split; [vm_compute; reflexivity|].
  apply (equal_displacement_embeds Axis.X stuckA stuckB false 4).
  vm_compute. reflexivity.
Defined.

Lemma zero_overlap_reports_embedding_witness :
  (fst (GetOverlap Axis.X stuckA stuckB false 4) == 0
   /\ Separate Axis.X stuckA stuckB false 4
      = Returned (true, snd (GetOverlap Axis.X stuckA stuckB false 4))
   /\ unmoved stuckA (fst (snd (GetOverlap Axis.X stuckA stuckB false 4)))
   /\ unmoved stuckB (snd (snd (GetOverlap Axis.X stuckA stuckB false 4))))
  /\ (fst (GetOverlap Axis.X lightBox behind false 4) == 0
      /\ Separate Axis.X lightBox behind false 4
         = Returned (false, snd (GetOverlap Axis.X lightBox behind false 4))).
Proof.
  split.
  - assert (H : fst (GetOverlap Axis.X stuckA stuckB false 4) == 0)
      by (vm_compute; reflexivity).
    destruct (zero_overlap_reports_embedding Axis.X stuckA stuckB false 4 H)
      as (_ & U1 & U2 & T & _).
    split; [exact H|]. split; [|split; assumption].
    apply T. vm_compute. reflexivity.
  - assert (H : fst (GetOverlap Axis.X lightBox behind false 4) == 0)
      by (vm_compute; reflexivity).
    destruct (zero_overlap_reports_embedding Axis.X lightBox behind false 4 H)
      as (_ & _ & _ & _ & F).
    split; [exact H|].
    apply F. left. vm_compute. reflexivity.
Defined.

(** ** Further properties of the projector *)

(** X1. Reading a component after writing it gives the value written, the
    other component is not affected, and writing back what was read changes
    nothing. *)
Theorem projection_roundtrip (ax : Axis.t) (v : Vector2) (a : number) :
  Axis.get ax (Axis.set ax v a) = a
  /\ Axis.get (Axis.other ax) (Axis.set ax v a) = Axis.get (Axis.other ax) v
  /\ Axis.set ax v (Axis.get ax v) = v.
Proof. destruct ax, v; repeat split; reflexivity. Qed.

Lemma edgesKept_refl (e : Edges) : edgesKept e e.
Proof. unfold edgesKept. repeat split; intros H; exact H. Qed.

Lemma edgesKept_trans (a b c : Edges) :
  edgesKept a b -> edgesKept b c -> edgesKept a c.
Proof. unfold edgesKept. intuition. Qed.

Lemma edgesKept_setEdges (ax : Axis.t) (v : Edges) (l r : bool) :
  edgesKept v (Axis.setEdges ax v l r).
Proof.
  unfold edgesKept. destruct ax; cbn; repeat split; intros H;
    rewrite ?H, ?orb_true_r; reflexivity.
Qed.

Lemma noneConsistent_setEdges (ax : Axis.t) (v : Edges) (l r : bool) :
  noneConsistent v -> noneConsistent (Axis.setEdges ax v l r).
Proof.
  unfold noneConsistent. destruct v as [[u ri d le] n]. cbn. intros ->.
  destruct ax; cbn; destruct l, r, u, ri, d, le; reflexivity.
Qed.

(** X3. [setEdges] never clears a side, whatever its arguments. *)
Theorem setEdges_never_clears (ax : Axis.t) (v : Edges) (l r : bool) :
  edgesKept v (Axis.setEdges ax v l r).
Proof. apply edgesKept_setEdges. Qed.

(** X4. [setEdges] keeps [none] consistent with the four sides. *)
Theorem setEdges_none_consistent (ax : Axis.t) (v : Edges) (l r : bool) :
  noneConsistent v -> noneConsistent (Axis.setEdges ax v l r).
Proof. apply noneConsistent_setEdges. Qed.

Lemma setEdges_none_consistent_witness :
  noneConsistent noEdges
  /\ noneConsistent (Axis.setEdges Axis.Y noEdges true false).
Proof.
  split; [reflexivity|].
  apply (setEdges_none_consistent Axis.Y noEdges true false). reflexivity.
Defined.

(** X5. [inOrder] relates every pair of bodies one way or the other. *)
Theorem inOrder_connex (ax : Axis.t) (a b : Body) :
  Axis.inOrder ax a b = true \/ Axis.inOrder ax b a = true.
Proof.
  unfold Axis.inOrder.
  destruct (Qle_bool (Qabs (Axis.rd ax (extents a) - Axis.lu ax (extents b)))
              (Qabs (Axis.rd ax (extents b) - Axis.lu ax (extents a)))) eqn:E.
  - left. reflexivity.
  - right. apply Qle_bool_iff. apply Qlt_le_weak. apply Qnot_le_lt.
    intros L. apply Qle_bool_iff in L. congruence.
Qed.

(** X6. [displaceTo] moves a body along its axis only: the projected
    position grows by the offset (by nothing for a null offset), the
    projected velocity becomes the given value (or stays for a null value),
    and the components on the other axis are not touched. *)
Theorem displaceTo_along_axis (ax : Axis.t) (b : Body) (o v : option number)
    (l r : bool) :
  let b' := Axis.displaceTo ax b o v l r in
  Axis.get ax (position b')
  == Axis.get ax (position b) + match o with Some d => d | None => 0 end
  /\ Axis.get (Axis.other ax) (position b')
     = Axis.get (Axis.other ax) (position b)
  /\ Axis.get ax (velocity b')
     = match v with Some w => w | None => Axis.get ax (velocity b) end
  /\ Axis.get (Axis.other ax) (velocity b')
     = Axis.get (Axis.other ax) (velocity b).
Proof.
  unfold Axis.displaceTo, Axis.inc.
  destruct o, v; case_if; destruct ax; cbn; repeat split;
    try reflexivity; symmetry; apply Qplus_0_r.
Qed.

(** ** Relations that every write of the core respects *)

Section Preservation.

Variable R : Body -> Body -> Prop.

Hypothesis R_refl : forall b, R b b.
Hypothesis R_trans : forall a b c, R a b -> R b c -> R a c.
Hypothesis R_position : forall b v, R b (with_position b v).
Hypothesis R_velocity : forall b v, R b (with_velocity b v).
Hypothesis R_center : forall b v, R b (with_center b v).
Hypothesis R_touching :
  forall ax b l r,
    R b (with_touching b (Axis.setEdges ax (touching b) l r)).
Hypothesis R_blocked :
  forall ax b l r,
    R b (with_blocked b (Axis.setEdges ax (blocked b) l r)).
Hypothesis R_overlapV : forall b v, R b (with_overlapV b v).
Hypothesis R_embedded : forall b, R b (with_embedded b true).

(** One write after another. *)
Ltac writes :=
  repeat first
    [ apply R_refl
    | eapply R_trans;
      [ | first [ apply R_blocked | apply R_touching | apply R_velocity
                | apply R_position | apply R_center | apply R_overlapV
                | apply R_embedded ] ] ].

Lemma displaceTo_preserves (ax : Axis.t) (b : Body) (o v : option number)
    (l r : bool) :
  R b (Axis.displaceTo ax b o v l r).
Proof.
  unfold Axis.displaceTo, updateCenter.
  destruct o, v; case_if; writes.
Qed.

Lemma carry_preserves (ax : Axis.t) (p b : Body) : R b (Process.carry ax p b).
Proof. unfold Process.carry. apply R_position. Qed.

Lemma GetOverlap_preserves (ax : Axis.t) (b1 b2 : Body) (oo : bool)
    (bias : number) :
  R b1 (fst (snd (GetOverlap ax b1 b2 oo bias)))
  /\ R b2 (snd (snd (GetOverlap ax b1 b2 oo bias))).
Proof.
  unfold GetOverlap.
  repeat (case_if; cbn [fst snd]); split; writes.
Qed.

Lemma BlockCheck_preserves (s : Process.vars) :
  onBoth R s (snd (Process.BlockCheck s)).
Proof.
  unfold Process.BlockCheck, onBoth.
  repeat (case_if; cbn [fst snd]); cbn [Process.body1 Process.body2
    Process.with_body1 Process.with_body2]; split;
    first [apply R_refl | apply displaceTo_preserves].
Qed.

Lemma Run_preserves (side : Z) (s s' : Process.vars) (res : bool) :
  Process.Run side s = Returned (res, s') -> onBoth R s s'.
Proof.
  unfold Process.Run, onBoth.
  destruct (Process.shares s) as [[sh1 sh2] [i1 i2]].
  destruct side as [|[p|p|]|]; try discriminate;
    try (destruct p as [p|p|]; try discriminate);
    intros H; injection H as _ <-;
    cbn [Process.body1 Process.body2 Process.with_body1 Process.with_body2
         Process.axis Process.overlap Process.body1Pushable
         Process.body2Pushable];
    split; apply displaceTo_preserves.
Qed.

Lemma Check_preserves (s s' : Process.vars) (res : bool) :
  Process.Check s = Returned (res, s') -> onBoth R s s'.
Proof.
  unfold Process.Check.
  repeat case_if; intros H;
    try (apply Run_preserves in H; exact H).
  injection H as _ <-. split; apply R_refl.
Qed.

Lemma RunImmovableBody1_preserves (bs : Z) (s : Process.vars) :
  onBoth R s (Process.RunImmovableBody1 bs s).
Proof.
  unfold Process.RunImmovableBody1, onBoth.
  repeat case_if;
    cbn [Process.body1 Process.body2 Process.with_body1 Process.with_body2
         Process.axis];
    split; try apply R_refl;
    try (eapply R_trans; [|apply carry_preserves]);
    first [apply R_velocity | apply displaceTo_preserves].
Qed.

Lemma RunImmovableBody2_preserves (bs : Z) (s : Process.vars) :
  onBoth R s (Process.RunImmovableBody2 bs s).
Proof.
  unfold Process.RunImmovableBody2, onBoth.
  repeat case_if;
    cbn [Process.body1 Process.body2 Process.with_body1 Process.with_body2
         Process.axis];
    split; try apply R_refl;
    try (eapply R_trans; [|apply carry_preserves]);
    first [apply R_refl | apply displaceTo_preserves].
Qed.

Lemma Set_preserves (ax : Axis.t) (b1 b2 : Body) (ov : number) :
  R b1 (Process.body1 (snd (Process.Set_ ax b1 b2 ov)))
  /\ R b2 (Process.body2 (snd (Process.Set_ ax b1 b2 ov))).
Proof.
  unfold Process.Set_.
  match goal with
  | |- context [Process.BlockCheck ?s0] =>
      exact (BlockCheck_preserves s0)
  end.
Qed.

Lemma Separate_preserves (ax : Axis.t) (b1 b2 : Body) (oo : bool)
    (bias : number) (res : bool) (b1' b2' : Body) :
  Separate ax b1 b2 oo bias = Returned (res, (b1', b2')) ->
  R b1 b1' /\ R b2 b2'.
Proof.
  unfold Separate.
  pose proof (GetOverlap_preserves ax b1 b2 oo bias) as [G1 G2].
  destruct (GetOverlap ax b1 b2 oo bias) as [ov [g1 g2]].
  cbn [fst snd] in G1, G2.
  case_if.
  { intros H. injection H as _ <- <-. split; assumption. }
  pose proof (Set_preserves ax g1 g2 ov) as [S1 S2].
  destruct (Process.Set_ ax g1 g2 ov) as [bs s]. cbn [fst snd] in S1, S2.
  assert (T : forall s', onBoth R s s' ->
                R b1 (Process.body1 s') /\ R b2 (Process.body2 s')).
  { intros s' [A B]. split; eapply R_trans; eauto. }
  repeat case_if; unfold Process.bodies.
  - intros H. injection H as _ <- <-. apply T. split; apply R_refl.
  - destruct (Process.Check s) as [[r s']|msg] eqn:EC; cbn [bind fst snd];
      [|discriminate].
    intros H. injection H as _ <- <-. apply T.
    eapply Check_preserves. exact EC.
  - intros H. injection H as _ <- <-. apply T.
    apply RunImmovableBody1_preserves.
  - intros H. injection H as _ <- <-. apply T.
    apply RunImmovableBody2_preserves.
  - intros H. injection H as _ <- <-. apply T. split; apply R_refl.
Qed.

End Preservation.

(** ** Three such relations *)

Lemma sameReadOnly_refl (b : Body) : sameReadOnly b b.
Proof. unfold sameReadOnly. repeat split; reflexivity. Qed.

Lemma sameReadOnly_trans (a b c : Body) :
  sameReadOnly a b -> sameReadOnly b c -> sameReadOnly a c.
Proof. unfold sameReadOnly. intuition congruence. Qed.

Lemma flagsKept_refl (b : Body) : flagsKept b b.
Proof.
  unfold flagsKept. repeat split; try apply edgesKept_refl. intros H; exact H.
Qed.

Lemma flagsKept_trans (a b c : Body) :
  flagsKept a b -> flagsKept b c -> flagsKept a c.
Proof.
  unfold flagsKept. intros [T1 [B1 E1]] [T2 [B2 E2]].
  repeat split; try (eapply edgesKept_trans; eassumption). auto.
Qed.

(** Every write of the core keeps the read-only fields. *)
Lemma Separate_sameReadOnly (ax : Axis.t) (b1 b2 : Body) (oo : bool)
    (bias : number) (res : bool) (b1' b2' : Body) :
  Separate ax b1 b2 oo bias = Returned (res, (b1', b2')) ->
  sameReadOnly b1 b1' /\ sameReadOnly b2 b2'.
Proof.
  apply (Separate_preserves sameReadOnly sameReadOnly_refl sameReadOnly_trans);
    intros; unfold sameReadOnly; cbn; repeat split; reflexivity.
Qed.

Lemma GetOverlap_flagsKept (ax : Axis.t) (b1 b2 : Body) (oo : bool)
    (bias : number) :
  flagsKept b1 (fst (snd (GetOverlap ax b1 b2 oo bias)))
  /\ flagsKept b2 (snd (snd (GetOverlap ax b1 b2 oo bias))).
Proof.
  apply (GetOverlap_preserves flagsKept flagsKept_refl flagsKept_trans);
    intros; unfold flagsKept; cbn;
    repeat split; try apply edgesKept_refl; try apply edgesKept_setEdges;
    auto.
Qed.

Lemma Separate_flagsKept (ax : Axis.t) (b1 b2 : Body) (oo : bool)
    (bias : number) (res : bool) (b1' b2' : Body) :
  Separate ax b1 b2 oo bias = Returned (res, (b1', b2')) ->
  flagsKept b1 b1' /\ flagsKept b2 b2'.
Proof.
  apply (Separate_preserves flagsKept flagsKept_refl flagsKept_trans);
    intros; unfold flagsKept; cbn;
    repeat split; try apply edgesKept_refl; try apply edgesKept_setEdges;
    auto.
Qed.

Lemma GetOverlap_keepsConsistent (ax : Axis.t) (b1 b2 : Body) (oo : bool)
    (bias : number) :
  keepsConsistent b1 (fst (snd (GetOverlap ax b1 b2 oo bias)))
  /\ keepsConsistent b2 (snd (snd (GetOverlap ax b1 b2 oo bias))).
Proof.
  apply (GetOverlap_preserves keepsConsistent);
    unfold keepsConsistent, bodyConsistent; cbn; intros; try tauto;
    match goal with H : _ /\ _ |- _ => destruct H end;
    split; try assumption; apply noneConsistent_setEdges; assumption.
Qed.

Lemma Separate_keepsConsistent (ax : Axis.t) (b1 b2 : Body) (oo : bool)
    (bias : number) (res : bool) (b1' b2' : Body) :
  Separate ax b1 b2 oo bias = Returned (res, (b1', b2')) ->
  keepsConsistent b1 b1' /\ keepsConsistent b2 b2'.
Proof.
  apply (Separate_preserves keepsConsistent);
    unfold keepsConsistent, bodyConsistent; cbn; intros; try tauto;
    match goal with H : _ /\ _ |- _ => destruct H end;
    split; try assumption; apply noneConsistent_setEdges; assumption.
Qed.

Lemma gtb_compat (o a b : number) : a == b -> gtb o a = gtb o b.
Proof.
  intros E. unfold gtb, ltb. f_equal.
  destruct (Qle_bool o a) eqn:Ea, (Qle_bool o b) eqn:Eb; try reflexivity.
  - apply Qle_bool_iff in Ea. rewrite E in Ea. apply Qle_bool_iff in Ea.
    congruence.
  - apply Qle_bool_iff in Eb. rewrite <- E in Eb. apply Qle_bool_iff in Eb.
    congruence.
Qed.

Lemma ltb_antisym (a b : number) :
  strictEq a b = false -> ltb b a = negb (ltb a b).
Proof.
  intros E. apply strictEq_false in E.
  destruct (ltb a b) eqn:L; cbn.
  - apply ltb_true in L. apply ltb_false. apply Qlt_le_weak. exact L.
  - apply ltb_false in L. apply ltb_true.
    apply Qle_lt_or_eq in L. destruct L as [L | L]; [exact L|].
    exfalso. apply E. symmetry. exact L.
Qed.

(** ** Further properties of [displaceTo] and of the overlap calculator *)

(** X7. Besides position, centre and velocity, [displaceTo] writes the
    blocked struct only, sets sides there without clearing any, and leaves
    it alone when both block arguments are falsy. *)
Theorem displaceTo_keeps_the_rest (ax : Axis.t) (b : Body)
    (o v : option number) (l r : bool) :
  let b' := Axis.displaceTo ax b o v l r in
  sameReadOnly b b'
  /\ touching b' = touching b
  /\ overlapV b' = overlapV b
  /\ embedded b' = embedded b
  /\ edgesKept (blocked b) (blocked b')
  /\ (l || r = false -> blocked b' = blocked b).
Proof.
  unfold Axis.displaceTo, sameReadOnly.
  destruct o, v; case_if; cbn; repeat split;
    try reflexivity; try discriminate;
    first [apply edgesKept_setEdges | apply edgesKept_refl].
Qed.

(** X8. [GetOverlap] writes [touching], [blocked], [overlapV] and
    [embedded] and nothing else: position, centre, velocity and every
    read-only field of both bodies are as before. *)
Theorem GetOverlap_writes_flags_only (ax : Axis.t) (b1 b2 : Body) (oo : bool)
    (bias : number) :
  let r := GetOverlap ax b1 b2 oo bias in
  (sameReadOnly b1 (fst (snd r)) /\ unmoved b1 (fst (snd r))
   /\ center (fst (snd r)) = center b1)
  /\ (sameReadOnly b2 (snd (snd r)) /\ unmoved b2 (snd (snd r))
      /\ center (snd (snd r)) = center b2).
Proof.
  unfold GetOverlap, sameReadOnly, unmoved.
  repeat (case_if; cbn [fst snd]); cbn; repeat split; reflexivity.
Qed.

(** X9. An overlap-only probe never writes a blocked struct. *)
Theorem GetOverlap_overlapOnly_keeps_blocked (ax : Axis.t) (b1 b2 : Body)
    (bias : number) :
  let r := GetOverlap ax b1 b2 true bias in
  blocked (fst (snd r)) = blocked b1 /\ blocked (snd (snd r)) = blocked b2.
Proof.
  unfold GetOverlap. rewrite !andb_false_r.
  repeat (case_if; cbn [fst snd]); cbn; split; reflexivity.
Qed.

(** X10. [GetOverlap] only ever sets flags: a touching or blocked side
    that was set stays set, and an embedded body stays embedded. *)
Theorem GetOverlap_never_clears_flags (ax : Axis.t) (b1 b2 : Body)
    (oo : bool) (bias : number) :
  let r := GetOverlap ax b1 b2 oo bias in
  flagsKept b1 (fst (snd r)) /\ flagsKept b2 (snd (snd r)).
Proof. apply GetOverlap_flagsKept. Qed.

(** X11. [GetOverlap] keeps [none] consistent with the four sides in the
    touching and blocked structs of both bodies. *)
Theorem GetOverlap_keeps_none_consistent (ax : Axis.t) (b1 b2 : Body)
    (oo : bool) (bias : number) :
  bodyConsistent b1 -> bodyConsistent b2 ->
  let r := GetOverlap ax b1 b2 oo bias in
  bodyConsistent (fst (snd r)) /\ bodyConsistent (snd (snd r)).
Proof.
  intros H1 H2.
  destruct (GetOverlap_keepsConsistent ax b1 b2 oo bias) as [K1 K2].
  split; [apply K1 | apply K2]; assumption.
Qed.

Lemma GetOverlap_keeps_none_consistent_witness :
  bodyConsistent lightBox /\ bodyConsistent wall
  /\ let r := GetOverlap Axis.X lightBox wall false 4 in
     bodyConsistent (fst (snd r)) /\ bodyConsistent (snd (snd r)).
Proof.
  assert (H1 : bodyConsistent lightBox) by (split; reflexivity).
  assert (H2 : bodyConsistent wall) by (split; reflexivity).
  split; [exact H1|]. split; [exact H2|].
  apply (GetOverlap_keeps_none_consistent Axis.X lightBox wall false 4 H1 H2).
Defined.

(** X12. [GetOverlap] does not depend on the order of its two bodies:
    called with the bodies exchanged it returns the same overlap and leaves
    each body in the same state. *)
Theorem GetOverlap_argument_order (ax : Axis.t) (b1 b2 : Body) (oo : bool)
    (bias : number) :
  let r := GetOverlap ax b1 b2 oo bias in
  GetOverlap ax b2 b1 oo bias = (fst r, (snd (snd r), fst (snd r))).
Proof.
  unfold GetOverlap.
  set (d1 := Axis.get ax (position b1) - Axis.get ax (prev b1)).
  set (d2 := Axis.get ax (position b2) - Axis.get ax (prev b2)).
  assert (Hm : forall o, gtb o (Qabs d2 + Qabs d1 + bias)
                         = gtb o (Qabs d1 + Qabs d2 + bias)).
  { intros o. apply gtb_compat. unfold number in *. ring. }
  unfold strictEq at 1. rewrite (Qeq_bool_comm d2 d1). fold (strictEq d1 d2).
  destruct (strictEq d1 d2) eqn:E; [reflexivity|].
  rewrite (ltb_antisym d1 d2 E).
  destruct (ltb d1 d2); cbn [negb]; rewrite Hm;
    repeat (case_if; cbn [fst snd]); reflexivity.
Qed.

(** X13. On a separation call (not overlap-only) with a non-negative
    bias, the overlap returned never exceeds the greatest closing distance
    [|d1| + |d2| + bias]. *)
Theorem GetOverlap_bounded (ax : Axis.t) (b1 b2 : Body) (bias : number) :
  0 <= bias ->
  fst (GetOverlap ax b1 b2 false bias)
  <= Qabs (displacement ax b1) + Qabs (displacement ax b2) + bias.
Proof.
  intros Hb. unfold displacement, Axis.delta, GetOverlap.
  set (d1 := Axis.get ax (position b1) - Axis.get ax (prev b1)).
  set (d2 := Axis.get ax (position b2) - Axis.get ax (prev b2)).
  assert (H0 : 0 <= Qabs d1 + Qabs d2 + bias).
  { pose proof (Qabs_nonneg d1). pose proof (Qabs_nonneg d2).
    unfold number in *. lra. }
  destruct (strictEq d1 d2); [exact H0|].
  destruct (ltb d1 d2);
    match goal with
    | |- context [if ?c then _ else _] => destruct c eqn:C
    end; cbn [fst snd]; try exact H0;
    apply orb_false_iff in C; destruct C as [C _];
    apply orb_false_iff in C; destruct C as [C _];
    rewrite andb_true_r in C; apply ltb_false in C; exact C.
Qed.

Lemma GetOverlap_bounded_witness :
  0 <= 4
  /\ fst (GetOverlap Axis.X lightBox heavyBox false 4)
     <= Qabs (displacement Axis.X lightBox)
        + Qabs (displacement Axis.X heavyBox) + 4.
Proof.
  assert (H : 0 <= 4) by (vm_compute; discriminate).
  split; [exact H|].
  apply (GetOverlap_bounded Axis.X lightBox heavyBox 4 H).
Defined.

(** X14. [GetOverlap] writes [embedded] in its equal-displacement branch
    only: when the two displacements differ, both flags are as before. *)
Theorem GetOverlap_embedded_only_when_equal (ax : Axis.t) (b1 b2 : Body)
    (oo : bool) (bias : number) :
  ~ displacement ax b1 == displacement ax b2 ->
  let r := GetOverlap ax b1 b2 oo bias in
  embedded (fst (snd r)) = embedded b1
  /\ embedded (snd (snd r)) = embedded b2.
Proof.
  intros H. apply strictEq_false in H.
  unfold displacement, Axis.delta in H. unfold GetOverlap. rewrite H.
  repeat (case_if; cbn [fst snd]); cbn; split; reflexivity.
Qed.

Lemma GetOverlap_embedded_only_when_equal_witness :
  ~ displacement Axis.X lightBox == displacement Axis.X heavyBox
  /\ let r := GetOverlap Axis.X lightBox heavyBox false 4 in
     embedded (fst (snd r)) = embedded lightBox
     /\ embedded (snd (snd r)) = embedded heavyBox.
Proof.
  assert (H : ~ displacement Axis.X lightBox == displacement Axis.X heavyBox)
    by (vm_compute; intros E; discriminate E).
  split; [exact H|].
  apply (GetOverlap_embedded_only_when_equal Axis.X lightBox heavyBox false 4 H).
Defined.

(** ** Further properties of the process and of the orchestrator *)

Lemma GetOverlap_sameReadOnly (ax : Axis.t) (b1 b2 : Body) (oo : bool)
    (bias : number) :
  sameReadOnly b1 (fst (snd (GetOverlap ax b1 b2 oo bias)))
  /\ sameReadOnly b2 (snd (snd (GetOverlap ax b1 b2 oo bias))).
Proof.
  apply (GetOverlap_preserves sameReadOnly sameReadOnly_refl sameReadOnly_trans);
    intros; unfold sameReadOnly; cbn; repeat split; reflexivity.
Qed.

(** [BlockCheck] reports 0, 1 or 2, and with 0 it has written nothing. *)
Lemma BlockCheck_result (s : Process.vars) :
  (fst (Process.BlockCheck s) = 0%Z /\ snd (Process.BlockCheck s) = s)
  \/ fst (Process.BlockCheck s) = 1%Z
  \/ fst (Process.BlockCheck s) = 2%Z.
Proof.
  unfold Process.BlockCheck.
  repeat (case_if; cbn [fst snd]); auto.
Qed.

(** [Run] returns [true] whenever it returns. *)
Lemma Run_true (side : Z) (s s' : Process.vars) (res : bool) :
  Process.Run side s = Returned (res, s') -> res = true.
Proof.
  unfold Process.Run.
  destruct (Process.shares s) as [[sh1 sh2] [i1 i2]].
  destruct side as [|[p|p|]|]; try discriminate;
    try (destruct p as [p|p|]; try discriminate);
    intros H; injection H as <- _; reflexivity.
Qed.

(** [Check] returns [false] only without having touched a body. *)
Lemma Check_false (s s' : Process.vars) :
  Process.Check s = Returned (false, s') ->
  Process.bodies s' = Process.bodies s.
Proof.
  unfold Process.Check.
  repeat case_if; intros H;
    try (apply Run_true in H; discriminate H).
  injection H as <-. reflexivity.
Qed.

(** X15. [Run] accepts the sides 0 to 3, for which it returns [true], and
    throws on every other side. *)
Theorem Run_side_range (side : Z) (s : Process.vars) :
  ((0 <= side <= 3)%Z ->
   exists s', Process.Run side s = Returned (true, s'))
  /\ (~ (0 <= side <= 3)%Z ->
      Process.Run side s = Thrown "what side?").
Proof.
  unfold Process.Run.
  destruct (Process.shares s) as [[sh1 sh2] [i1 i2]].
  split; intros H.
  - assert (Hs : side = 0%Z \/ side = 1%Z \/ side = 2%Z \/ side = 3%Z) by lia.
    destruct Hs as [-> | [-> | [-> | ->]]]; eexists; reflexivity.
  - destruct side as [|[p|p|]|]; try reflexivity; try lia;
      destruct p; try reflexivity; lia.
Qed.

(** X16. [Separate] never throws: [Check] passes [Run] a side between 0
    and 3 on every path, so the assertion in [Run] cannot fire from
    [Separate]. *)
Theorem Separate_never_throws (ax : Axis.t) (b1 b2 : Body) (oo : bool)
    (bias : number) :
  exists res b1' b2', Separate ax b1 b2 oo bias = Returned (res, (b1', b2')).
Proof. apply Separate_returns. Qed.

(** X17. When [Separate] returns [false], no body has been moved: both
    positions and both velocities are as before the call. *)
Theorem Separate_false_moves_nothing (ax : Axis.t) (b1 b2 : Body) (oo : bool)
    (bias : number) (b1' b2' : Body) :
  Separate ax b1 b2 oo bias = Returned (false, (b1', b2')) ->
  unmoved b1 b1' /\ unmoved b2 b2'.
Proof.
  unfold Separate.
  pose proof (GetOverlap_frame ax b1 b2 oo bias) as F. cbv zeta in F.
  destruct (GetOverlap ax b1 b2 oo bias) as [ov [g1 g2]].
  cbn [fst snd] in F. destruct F as [[U1 _] [U2 _]].
  case_if.
  { intros H. injection H as _ <- <-. split; assumption. }
  unfold Process.Set_.
  match goal with
  | |- context [Process.BlockCheck ?s0] =>
      pose proof (BlockCheck_result s0) as B; set (s := s0) in *
  end.
  destruct (Process.BlockCheck s) as [bs s'] eqn:E. cbn [fst snd] in B.
  repeat case_if; try discriminate.
  destruct B as [[-> ->] | [-> | ->]]; try discriminate.
  destruct (Process.Check s) as [[r s'']|msg] eqn:EC; cbn [bind fst snd];
    [|discriminate].
  intros H. injection H as -> H1 H2. apply Check_false in EC.
  unfold Process.bodies in EC. injection EC as E1 E2.
  rewrite E1 in H1. rewrite E2 in H2. subst s. cbn in H1, H2.
  subst b1' b2'. split; assumption.
Qed.

Lemma Separate_false_moves_nothing_witness :
  exists b1' b2',
    Separate Axis.X retreating heavyBox false 20 = Returned (false, (b1', b2'))
    /\ unmoved retreating b1' /\ unmoved heavyBox b2'.
Proof.
  eexists _, _.
  assert (H : Separate Axis.X retreating heavyBox false 20
              = Returned (false, snd (GetOverlap Axis.X retreating heavyBox
                                        false 20)))
    by (vm_compute; reflexivity).
  split; [exact H|].
  apply (Separate_false_moves_nothing Axis.X retreating heavyBox false 20 _ _ H).
Defined.

(** X18. On an overlap-only call, with two immovable bodies, or with a
    body that separates by its own logic on the axis, [Separate] does what
    [GetOverlap] does and nothing more: the bodies are as [GetOverlap]
    leaves them, and the result tells whether the overlap is non-zero or
    both bodies are embedded. *)
Theorem Separate_short_circuit (ax : Axis.t) (b1 b2 : Body) (oo : bool)
    (bias : number) :
  oo = true
  \/ (immovable b1 = true /\ immovable b2 = true)
  \/ Axis.getCustomSeparate ax b1 = true
  \/ Axis.getCustomSeparate ax b2 = true ->
  let r := GetOverlap ax b1 b2 oo bias in
  Separate ax b1 b2 oo bias
  = Returned (negb (strictEq (fst r) 0)
              || (embedded (fst (snd r)) && embedded (snd (snd r))),
              snd r).
Proof.
  intros H. unfold Separate.
  pose proof (GetOverlap_sameReadOnly ax b1 b2 oo bias) as [S1 S2].
  destruct (GetOverlap ax b1 b2 oo bias) as [ov [g1 g2]].
  cbn [fst snd] in *.
  assert (C1 : Axis.getCustomSeparate ax g1 = Axis.getCustomSeparate ax b1).
  { unfold sameReadOnly in S1. destruct ax; cbn; intuition. }
  assert (C2 : Axis.getCustomSeparate ax g2 = Axis.getCustomSeparate ax b2).
  { unfold sameReadOnly in S2. destruct ax; cbn; intuition. }
  assert (I1 : immovable g1 = immovable b1)
    by (unfold sameReadOnly in S1; intuition).
  assert (I2 : immovable g2 = immovable b2)
    by (unfold sameReadOnly in S2; intuition).
  rewrite C1, C2, I1, I2.
  destruct H as [-> | [[-> ->] | [-> | ->]]]; cbn [orb andb];
    rewrite ?orb_true_r; reflexivity.
Qed.

Lemma Separate_short_circuit_witness :
  (true = true
   \/ (immovable lightBox = true /\ immovable heavyBox = true)
   \/ Axis.getCustomSeparate Axis.X lightBox = true
   \/ Axis.getCustomSeparate Axis.X heavyBox = true)
  /\ let r := GetOverlap Axis.X lightBox heavyBox true 4 in
     Separate Axis.X lightBox heavyBox true 4
     = Returned (negb (strictEq (fst r) 0)
                 || (embedded (fst (snd r)) && embedded (snd (snd r))),
                 snd r).
Proof.
  assert (H : true = true
              \/ (immovable lightBox = true /\ immovable heavyBox = true)
              \/ Axis.getCustomSeparate Axis.X lightBox = true
              \/ Axis.getCustomSeparate Axis.X heavyBox = true)
    by (left; reflexivity).
  split; [exact H|].
  apply (Separate_short_circuit Axis.X lightBox heavyBox true 4 H).
Defined.

(** X19. [Separate] never writes a field it only reads: [prev], size,
    mass, bounce, friction and every flag that configures a body are as
    before the call. *)
Theorem Separate_keeps_read_only (ax : Axis.t) (b1 b2 : Body) (oo : bool)
    (bias : number) :
  exists res b1' b2',
    Separate ax b1 b2 oo bias = Returned (res, (b1', b2'))
    /\ sameReadOnly b1 b1' /\ sameReadOnly b2 b2'.
Proof.
  destruct (Separate_returns ax b1 b2 oo bias) as [res [b1' [b2' H]]].
  exists res, b1', b2'. split; [exact H|].
  apply (Separate_sameReadOnly _ _ _ _ _ _ _ _ H).
Qed.

(** X20. [Separate] only ever sets flags: a touching or blocked side that
    was set stays set, and an embedded body stays embedded. *)
Theorem Separate_never_clears_flags (ax : Axis.t) (b1 b2 : Body) (oo : bool)
    (bias : number) :
  exists res b1' b2',
    Separate ax b1 b2 oo bias = Returned (res, (b1', b2'))
    /\ flagsKept b1 b1' /\ flagsKept b2 b2'.
Proof.
  destruct (Separate_returns ax b1 b2 oo bias) as [res [b1' [b2' H]]].
  exists res, b1', b2'. split; [exact H|].
  apply (Separate_flagsKept _ _ _ _ _ _ _ _ H).
Qed.

(** X21. [Separate] keeps [none] consistent with the four sides in the
    touching and blocked structs of both bodies. *)
Theorem Separate_keeps_none_consistent (ax : Axis.t) (b1 b2 : Body)
    (oo : bool) (bias : number) :
  bodyConsistent b1 -> bodyConsistent b2 ->
  exists res b1' b2',
    Separate ax b1 b2 oo bias = Returned (res, (b1', b2'))
    /\ bodyConsistent b1' /\ bodyConsistent b2'.
Proof.
  intros H1 H2.
  destruct (Separate_returns ax b1 b2 oo bias) as [res [b1' [b2' H]]].
  exists res, b1', b2'. split; [exact H|].
  destruct (Separate_keepsConsistent _ _ _ _ _ _ _ _ H) as [K1 K2].
  split; [apply K1 | apply K2]; assumption.
Qed.

Lemma Separate_keeps_none_consistent_witness :
  bodyConsistent lightBox /\ bodyConsistent crate
  /\ exists res b1' b2',
       Separate Axis.X lightBox crate false 4 = Returned (res, (b1', b2'))
       /\ bodyConsistent b1' /\ bodyConsistent b2'.
Proof.
  assert (H1 : bodyConsistent lightBox) by (split; reflexivity).
  assert (H2 : bodyConsistent crate) by (split; reflexivity).
  split; [exact H1|]. split; [exact H2|].
  apply (Separate_keeps_none_consistent Axis.X lightBox crate false 4 H1 H2).
Defined.

Lemma Set_assigned (ax : Axis.t) (b1 b2 : Body) (ov : number) :
  Process.Set_ ax b1 b2 ov = Process.BlockCheck (assigned ax b1 b2 ov).
Proof. reflexivity. Qed.

(** [Separate] past its early return, in terms of the block state. *)
Lemma Separate_after_Set (ax : Axis.t) (b1 b2 : Body) (oo : bool)
    (bias : number) (bs : Z) :
  blockedStateIn ax b1 b2 oo bias = Some bs ->
  let r := GetOverlap ax b1 b2 oo bias in
  let st := Process.BlockCheck
              (assigned ax (fst (snd r)) (snd (snd r)) (fst r)) in
  fst st = bs
  /\ Separate ax b1 b2 oo bias
     = if negb (immovable b1) && negb (immovable b2) then
         if (bs >? 0)%Z then Returned (true, Process.bodies (snd st))
         else bind (Process.Check (snd st))
                (fun c => Returned (fst c, Process.bodies (snd c)))
       else if immovable b1 then
         Returned (true, Process.bodies (Process.RunImmovableBody1 bs (snd st)))
       else if immovable b2 then
         Returned (true, Process.bodies (Process.RunImmovableBody2 bs (snd st)))
       else Returned (true, Process.bodies (snd st)).
Proof.
  unfold blockedStateIn, Separate.
  pose proof (GetOverlap_frame ax b1 b2 oo bias) as F. cbv zeta in F.
  destruct (GetOverlap ax b1 b2 oo bias) as [ov [g1 g2]].
  cbn [fst snd] in *. destruct F as [[_ I1] [_ I2]].
  case_if; [discriminate|].
  rewrite Set_assigned.
  destruct (Process.BlockCheck (assigned ax g1 g2 ov)) as [bs' s].
  cbn [fst snd]. intros H. injection H as ->.
  rewrite I1, I2. split; reflexivity.
Qed.

Lemma displaceTo_sameReadOnly (ax : Axis.t) (b : Body) (o v : option number)
    (l r : bool) :
  sameReadOnly b (Axis.displaceTo ax b o v l r).
Proof.
  apply (displaceTo_preserves sameReadOnly sameReadOnly_refl sameReadOnly_trans);
    intros; unfold sameReadOnly; cbn; repeat split; reflexivity.
Qed.

(** Projections of the variables of the process. *)
Ltac proc_simpl :=
  cbn [assigned Process.axis Process.body1 Process.body2
       Process.body1Pushable Process.body2Pushable
       Process.body1MassImpact Process.body2MassImpact
       Process.body1FullImpact Process.body2FullImpact
       Process.body1MovingLeft Process.body1MovingRight
       Process.body1Stationary Process.body2MovingLeft
       Process.body2MovingRight Process.body2Stationary
       Process.body1OnLeft Process.body2OnLeft Process.overlap
       Process.with_body1 Process.with_body2 Process.with_massImpacts
       Process.bodies fst snd bind] in *.

(** X22. Two pushable bodies that are not immovable and that
    [BlockCheck] lets through leave a separating [Separate] with the
    mass-impact velocities that [Check] computes,
    [vcm - bounce1 * m2 * (v1 - v2) / (m1 + m2)] for [body1] and
    [vcm + bounce2 * m1 * (v1 - v2) / (m1 + m2)] for [body2], with [vcm]
    the velocity of the centre of momentum, and with their masses as they
    were. *)
Theorem pushable_pair_velocities (ax : Axis.t) (b1 b2 : Body) (oo : bool)
    (bias : number) (b1' b2' : Body) :
  pushable b1 = true -> pushable b2 = true ->
  immovable b1 = false -> immovable b2 = false ->
  blockedStateIn ax b1 b2 oo bias = Some 0%Z ->
  Separate ax b1 b2 oo bias = Returned (true, (b1', b2')) ->
  let vRel := Axis.get ax (velocity b1) - Axis.get ax (velocity b2) in
  Axis.get ax (velocity b1')
  = centerOfMomentum ax b1 b2
    - Axis.get ax (bounce b1) * mass b2 * vRel / (mass b1 + mass b2)
  /\ Axis.get ax (velocity b2')
     = centerOfMomentum ax b1 b2
       + Axis.get ax (bounce b2) * mass b1 * vRel / (mass b1 + mass b2)
  /\ mass b1' = mass b1 /\ mass b2' = mass b2.
Proof.
  intros P1 P2 I1 I2 Hbs HS.
  destruct (Separate_after_Set _ _ _ _ _ _ Hbs) as [Hst Heq].
  cbv zeta in Hst, Heq.
  rewrite Heq in HS. rewrite I1, I2 in HS. clear Heq Hbs.
  cbn [negb andb Z.gtb Z.compare] in HS.
  pose proof (GetOverlap_frame ax b1 b2 oo bias) as F. cbv zeta in F.
  pose proof (GetOverlap_sameReadOnly ax b1 b2 oo bias) as [S1 S2].
  destruct (GetOverlap ax b1 b2 oo bias) as [ov [g1 g2]].
  cbn [fst snd] in *. destruct F as [[[_ V1] _] [[_ V2] _]].
  unfold sameReadOnly in S1, S2.
  destruct S1 as (_ & _ & _ & M1 & B1 & _ & Q1 & _).
  destruct S2 as (_ & _ & _ & M2 & B2 & _ & Q2 & _).
  destruct (BlockCheck_result (assigned ax g1 g2 ov)) as [[_ E] | [E | E]];
    [| rewrite E in Hst; discriminate ..].
  rewrite E in HS. clear E Hst.
  unfold Process.Check, Process.Run, Process.shares in HS.
  proc_simpl. rewrite Q1, Q2, P1, P2 in HS. cbn [andb negb] in HS.
  revert HS.
  repeat case_if; intros HS; try discriminate;
    injection HS as <- <-;
    rewrite !displaceTo_velocity, !get_set;
    unfold centerOfMomentum; rewrite V1, V2, M1, M2, B1, B2;
    (repeat split; try reflexivity);
    match goal with
    | |- mass (Axis.displaceTo ?a ?b ?o ?v ?l ?r) = _ =>
        pose proof (displaceTo_sameReadOnly a b o v l r) as D;
        unfold sameReadOnly in D; destruct D as (_ & _ & _ & D & _);
        rewrite D; assumption
    end.
Qed.

Lemma pushable_pair_velocities_witness :
  blockedStateIn Axis.X bouncyLight bouncyHeavy false 4 = Some 0%Z
  /\ exists b1' b2',
       Separate Axis.X bouncyLight bouncyHeavy false 4
       = Returned (true, (b1', b2'))
       /\ Axis.get Axis.X (velocity b1')
          = centerOfMomentum Axis.X bouncyLight bouncyHeavy
            - Axis.get Axis.X (bounce bouncyLight) * mass bouncyHeavy
              * (Axis.get Axis.X (velocity bouncyLight)
                 - Axis.get Axis.X (velocity bouncyHeavy))
              / (mass bouncyLight + mass bouncyHeavy)
       /\ Axis.get Axis.X (velocity b2')
          = centerOfMomentum Axis.X bouncyLight bouncyHeavy
            + Axis.get Axis.X (bounce bouncyHeavy) * mass bouncyLight
              * (Axis.get Axis.X (velocity bouncyLight)
                 - Axis.get Axis.X (velocity bouncyHeavy))
              / (mass bouncyLight + mass bouncyHeavy)
       /\ mass b1' = mass bouncyLight /\ mass b2' = mass bouncyHeavy.
Proof.
  assert (Hbs : blockedStateIn Axis.X bouncyLight bouncyHeavy false 4
                = Some 0%Z) by (vm_compute; reflexivity).
  split; [exact Hbs|].
  eexists _, _. split; [vm_compute; reflexivity|].
  apply (pushable_pair_velocities Axis.X bouncyLight bouncyHeavy false 4
           _ _ eq_refl eq_refl eq_refl eq_refl Hbs).
  vm_compute. reflexivity.
Defined.

Lemma moving_one_way (d : number) :
  ltb d 0 = true -> gtb d 0 = true -> False.
Proof.
  unfold gtb. intros L G. apply ltb_true in L. apply ltb_true in G.
  exact (Qlt_irrefl _ (Qlt_trans _ _ _ L G)).
Qed.

(** X24. The blocked veto.  When neither body is immovable and
    [BlockCheck] reports [body1] as blocked, [body1] alone absorbs the
    correction: its projected position becomes [position - |overlap|] when
    it moved toward the upper side and [position + |overlap|] when it
    moved toward the lower side, and it takes its full-impact velocity
    [v2 - v1 * bounce1], while [body2] keeps its position and velocity, and
    [Separate] returns [true]. *)
Theorem blocked_body1_absorbs_correction (ax : Axis.t) (b1 b2 : Body)
    (oo : bool) (bias : number) :
  immovable b1 = false -> immovable b2 = false ->
  blockedStateIn ax b1 b2 oo bias = Some 1%Z ->
  exists b1' b2',
    Separate ax b1 b2 oo bias = Returned (true, (b1', b2'))
    /\ unmoved b2 b2'
    /\ Axis.get ax (position b1')
       = Axis.get ax (position b1)
         + (if gtb (displacement ax b1) 0
            then - Qabs (fst (GetOverlap ax b1 b2 oo bias))
            else Qabs (fst (GetOverlap ax b1 b2 oo bias)))
    /\ Axis.get ax (velocity b1')
       = Axis.get ax (velocity b2)
         - Axis.get ax (velocity b1) * Axis.get ax (bounce b1).
Proof.
  intros I1 I2 Hbs.
  destruct (Separate_after_Set _ _ _ _ _ _ Hbs) as [Hst Heq].
  cbv zeta in Hst, Heq.
  rewrite Heq. rewrite I1, I2. clear Heq Hbs.
  cbn [negb andb Z.gtb Z.compare].
  pose proof (GetOverlap_frame ax b1 b2 oo bias) as F. cbv zeta in F.
  pose proof (GetOverlap_sameReadOnly ax b1 b2 oo bias) as [S1 S2].
  destruct (GetOverlap ax b1 b2 oo bias) as [ov [g1 g2]].
  cbn [fst snd] in *. destruct F as [[[Pg1 V1] _] [[Pg2 V2] _]].
  unfold sameReadOnly in S1. destruct S1 as (R1 & _ & _ & _ & B1 & _).
  eexists _, _. split; [reflexivity|].
  revert Hst. unfold Process.BlockCheck, displacement. proc_simpl.
  rewrite Pg1, R1.
  destruct (gtb (Axis.delta ax (position b1) (prev b1)) 0) eqn:G;
    destruct (ltb (Axis.delta ax (position b1) (prev b1)) 0) eqn:L;
    try (exfalso; exact (moving_one_way _ L G));
    cbn [andb];
    repeat (case_if; cbn [fst snd]); proc_simpl; intros Hst;
    try discriminate;
    (split; [split; assumption|]);
    rewrite displaceTo_position, displaceTo_velocity;
    unfold Axis.inc; rewrite !get_set, Pg1, V1, V2, B1;
    split; reflexivity.
Qed.

Lemma blocked_body1_absorbs_correction_witness :
  immovable lightBox = false /\ immovable anchored = false
  /\ blockedStateIn Axis.X lightBox anchored false 4 = Some 1%Z
  /\ exists b1' b2',
       Separate Axis.X lightBox anchored false 4 = Returned (true, (b1', b2'))
       /\ unmoved anchored b2'
       /\ Axis.get Axis.X (position b1')
          = Axis.get Axis.X (position lightBox)
            + (if gtb (displacement Axis.X lightBox) 0
               then - Qabs (fst (GetOverlap Axis.X lightBox anchored false 4))
               else Qabs (fst (GetOverlap Axis.X lightBox anchored false 4)))
       /\ Axis.get Axis.X (velocity b1')
          = Axis.get Axis.X (velocity anchored)
            - Axis.get Axis.X (velocity lightBox)
              * Axis.get Axis.X (bounce lightBox).
Proof.
  assert (Hbs : blockedStateIn Axis.X lightBox anchored false 4 = Some 1%Z)
    by (vm_compute; reflexivity).
  split; [reflexivity|]. split; [reflexivity|]. split; [exact Hbs|].
  apply (blocked_body1_absorbs_correction Axis.X lightBox anchored false 4
           eq_refl eq_refl Hbs).
Defined.

Lemma get_other_set (ax : Axis.t) (v : Vector2) (a : number) :
  Axis.get (Axis.other ax) (Axis.set ax v a) = Axis.get (Axis.other ax) v.
Proof. destruct ax; reflexivity. Qed.

Lemma get_set_other_axis (ax : Axis.t) (v : Vector2) (a : number) :
  Axis.get (Axis.other ax) (Axis.set (Axis.other ax) v a) = a.
Proof. destruct ax; reflexivity. Qed.

Lemma displaceTo_position_other (ax : Axis.t) (b : Body) (o v : option number)
    (l r : bool) :
  Axis.get (Axis.other ax) (position (Axis.displaceTo ax b o v l r))
  = Axis.get (Axis.other ax) (position b).
Proof.
  unfold Axis.displaceTo, Axis.inc.
  destruct o, v; case_if; cbn; rewrite ?get_other_set; reflexivity.
Qed.

(** What [BlockCheck] leaves of [body1] for the riding rule. *)
Lemma BlockCheck_body1_other (s : Process.vars) :
  let s' := snd (Process.BlockCheck s) in
  Process.axis s' = Process.axis s
  /\ Axis.get (Axis.other (Process.axis s)) (position (Process.body1 s'))
     = Axis.get (Axis.other (Process.axis s)) (position (Process.body1 s))
  /\ sameReadOnly (Process.body1 s) (Process.body1 s')
  /\ Axis.get (Axis.other (Process.axis s)) (position (Process.body2 s'))
     = Axis.get (Axis.other (Process.axis s)) (position (Process.body2 s)).
Proof.
  unfold Process.BlockCheck.
  repeat (case_if; cbn [fst snd]); proc_simpl;
    rewrite ?displaceTo_position_other;
    repeat split; try reflexivity;
    first [apply displaceTo_sameReadOnly | apply sameReadOnly_refl].
Qed.

(** X25. The riding rule.  Against an immovable [body1], [Separate]
    carries [body2] along the other axis by [body1]'s displacement there
    times its friction there when [body1.moves] is set, and leaves
    [body2]'s other-axis position alone when it is not. *)
Theorem immovable_body1_carries_body2 (ax : Axis.t) (b1 b2 : Body)
    (oo : bool) (bias : number) (bs : Z) :
  immovable b1 = true ->
  blockedStateIn ax b1 b2 oo bias = Some bs ->
  exists b1' b2',
    Separate ax b1 b2 oo bias = Returned (true, (b1', b2'))
    /\ Axis.get (Axis.other ax) (position b2')
       == Axis.get (Axis.other ax) (position b2)
          + (if moves b1
             then Axis.get (Axis.other ax) (friction b1)
                  * displacement (Axis.other ax) b1
             else 0).
Proof.
  intros I1 Hbs.
  destruct (Separate_after_Set _ _ _ _ _ _ Hbs) as [_ Heq].
  cbv zeta in Heq. rewrite Heq. rewrite I1. clear Heq Hbs.
  cbn [negb andb].
  pose proof (GetOverlap_frame ax b1 b2 oo bias) as F. cbv zeta in F.
  pose proof (GetOverlap_sameReadOnly ax b1 b2 oo bias) as [S1 _].
  destruct (GetOverlap ax b1 b2 oo bias) as [ov [g1 g2]].
  cbn [fst snd] in *. destruct F as [[[Pg1 _] _] [[Pg2 _] _]].
  pose proof (BlockCheck_body1_other (assigned ax g1 g2 ov)) as B.
  cbv zeta in B. proc_simpl.
  destruct (Process.BlockCheck (assigned ax g1 g2 ov)) as [bs' s].
  cbn [fst snd] in *. destruct B as (Ba & Bp & Bs & Bq).
  assert (Hs : sameReadOnly b1 (Process.body1 s))
    by (eapply sameReadOnly_trans; eassumption).
  unfold sameReadOnly in Hs.
  destruct Hs as (Hprev & _ & _ & _ & _ & Hfr & _ & _ & Hmv & _).
  eexists _, _. split; [reflexivity|].
  unfold Process.RunImmovableBody1, displacement, Axis.delta.
  rewrite Ba. cbv zeta.
  destruct (moves b1); destruct (bs =? 1)%Z;
    try destruct (Process.body1OnLeft s); proc_simpl; rewrite Hmv; proc_simpl;
    unfold Process.carry; cbn [position with_position with_velocity];
    rewrite ?Ba, ?get_set_other_axis, ?displaceTo_position_other,
            ?Bq, ?Bp, ?Hprev, ?Hfr, ?Pg1, ?Pg2;
    try reflexivity; symmetry; apply Qplus_0_r.
Qed.

Lemma immovable_body1_carries_body2_witness :
  immovable lift = true
  /\ moves lift = true
  /\ blockedStateIn Axis.X lift lightBox false 4 = Some 0%Z
  /\ exists b1' b2',
       Separate Axis.X lift lightBox false 4 = Returned (true, (b1', b2'))
       /\ Axis.get (Axis.other Axis.X) (position b2')
          == Axis.get (Axis.other Axis.X) (position lightBox)
             + (if moves lift
                then Axis.get (Axis.other Axis.X) (friction lift)
                     * displacement (Axis.other Axis.X) lift
                else 0).
Proof.
  assert (Hbs : blockedStateIn Axis.X lift lightBox false 4 = Some 0%Z)
    by (vm_compute; reflexivity).
  split; [reflexivity|]. split; [reflexivity|]. split; [exact Hbs|].
  apply (immovable_body1_carries_body2 Axis.X lift lightBox false 4 0
           eq_refl Hbs).
Defined.

(** X26. Separation from an immovable [body2].  When [body1] is not
    immovable and [BlockCheck] lets the pair through, [Separate] returns
    [true] and leaves [body2]'s position and velocity alone; [body1]'s
    projected position becomes [position - |overlap|] when [inOrder] places
    [body1] on the lower side and [position + |overlap|] when it does not,
    and [body1] takes its full-impact velocity [v2 - v1 * bounce1]. *)
Theorem immovable_body2_pushes_body1_back (ax : Axis.t) (b1 b2 : Body)
    (oo : bool) (bias : number) :
  immovable b1 = false -> immovable b2 = true ->
  blockedStateIn ax b1 b2 oo bias = Some 0%Z ->
  exists b1' b2',
    Separate ax b1 b2 oo bias = Returned (true, (b1', b2'))
    /\ unmoved b2 b2'
    /\ Axis.get ax (position b1')
       = Axis.get ax (position b1)
         + (if Axis.inOrder ax b1 b2
            then - Qabs (fst (GetOverlap ax b1 b2 oo bias))
            else Qabs (fst (GetOverlap ax b1 b2 oo bias)))
    /\ Axis.get ax (velocity b1')
       = Axis.get ax (velocity b2)
         - Axis.get ax (velocity b1) * Axis.get ax (bounce b1).
Proof.
  intros I1 I2 Hbs.
  destruct (Separate_after_Set _ _ _ _ _ _ Hbs) as [Hst Heq].
  cbv zeta in Hst, Heq. rewrite Heq. rewrite I1, I2. clear Heq Hbs.
  cbn [negb andb].
  pose proof (GetOverlap_frame ax b1 b2 oo bias) as F. cbv zeta in F.
  pose proof (GetOverlap_sameReadOnly ax b1 b2 oo bias) as [S1 S2].
  destruct (GetOverlap ax b1 b2 oo bias) as [ov [g1 g2]].
  cbn [fst snd] in *. destruct F as [[[Pg1 V1] _] [[Pg2 V2] _]].
  unfold sameReadOnly in S1, S2.
  destruct S1 as (_ & W1 & H1 & _ & B1 & _).
  destruct S2 as (_ & W2 & H2 & _).
  assert (X1 : extents g1 = extents b1)
    by (unfold extents; rewrite Pg1, W1, H1; reflexivity).
  assert (X2 : extents g2 = extents b2)
    by (unfold extents; rewrite Pg2, W2, H2; reflexivity).
  destruct (BlockCheck_result (assigned ax g1 g2 ov)) as [[_ E] | [E | E]];
    [| rewrite E in Hst; discriminate ..].
  rewrite E. clear E Hst.
  eexists _, _. split; [reflexivity|].
  unfold Process.RunImmovableBody2. cbn [Z.eqb]. cbv zeta. proc_simpl.
  unfold Axis.inOrder. rewrite X1, X2. fold (Axis.inOrder ax b1 b2).
  destruct (Axis.inOrder ax b1 b2);
    cbn [negb]; proc_simpl; destruct (moves g2); proc_simpl;
    (split; [split; assumption|]);
    unfold Process.carry; cbn [position velocity with_position];
    rewrite ?get_set_other;
    rewrite displaceTo_position, displaceTo_velocity;
    unfold Axis.inc; rewrite !get_set, Pg1, V1, V2, B1;
    split; reflexivity.
Qed.

Lemma immovable_body2_pushes_body1_back_witness :
  immovable lightBox = false /\ immovable wall = true
  /\ blockedStateIn Axis.X lightBox wall false 4 = Some 0%Z
  /\ exists b1' b2',
       Separate Axis.X lightBox wall false 4 = Returned (true, (b1', b2'))
       /\ unmoved wall b2'
       /\ Axis.get Axis.X (position b1')
          = Axis.get Axis.X (position lightBox)
            + (if Axis.inOrder Axis.X lightBox wall
               then - Qabs (fst (GetOverlap Axis.X lightBox wall false 4))
               else Qabs (fst (GetOverlap Axis.X lightBox wall false 4)))
       /\ Axis.get Axis.X (velocity b1')
          = Axis.get Axis.X (velocity wall)
            - Axis.get Axis.X (velocity lightBox)
              * Axis.get Axis.X (bounce lightBox).
Proof.
  assert (Hbs : blockedStateIn Axis.X lightBox wall false 4 = Some 0%Z)
    by (vm_compute; reflexivity).
  split; [reflexivity|]. split; [reflexivity|]. split; [exact Hbs|].
  apply (immovable_body2_pushes_body1_back Axis.X lightBox wall false 4
           eq_refl eq_refl Hbs).
Defined.

(** ** The legacy calculator against the generic one *)

(** X27. The legacy [GetOverlapX] against the exported [GetOverlapX],
    which is [GetOverlap] bound to the X axis.  When [body1]'s displacement
    is not the smaller one, the two return the same value.  In every case
    they mark the same bodies as embedded, and the legacy function stores
    what it returns in [overlapX] of both bodies. *)
Theorem legacy_GetOverlapX_agrees (b1 b2 : Body) (o1 o2 : number)
    (oo : bool) (bias : number) :
  let rL := GetOverlapX (legacy b1 o1) (legacy b2 o2) oo bias in
  let rG := Arcade.GetOverlapX b1 b2 oo bias in
  (~ displacement Axis.X b1 < displacement Axis.X b2 -> fst rL = fst rG)
  /\ overlapX (fst (snd rL)) = fst rL
  /\ overlapX (snd (snd rL)) = fst rL
  /\ embedded (core (fst (snd rL))) = embedded (fst (snd rG))
  /\ embedded (core (snd (snd rL))) = embedded (snd (snd rG)).
Proof.
  unfold Arcade.GetOverlapX, GetOverlapX, GetOverlap, displacement,
    Axis.delta, body_x, body_right.
  cbn [core Axis.get Axis.rd Axis.lu].
  set (d1 := x (position b1) - x (prev b1)).
  set (d2 := x (position b2) - x (prev b2)).
  destruct (strictEq d1 d2) eqn:E.
  { cbn. repeat split; reflexivity. }
  unfold gtb at 1. rewrite (ltb_antisym d1 d2 E).
  destruct (ltb d1 d2) eqn:L; cbn [negb].
  - split.
    + intros H. exfalso. apply H. apply ltb_true. exact L.
    + repeat (case_if; cbn [fst snd]); cbn; repeat split; reflexivity.
  - repeat (case_if; cbn [fst snd]); cbn; repeat split; reflexivity.
Qed.

(** ** Two bodies that cannot be pushed *)

(** X28. Two bodies that are not pushable and moved toward each other
    both stop: when [BlockCheck] lets the pair through and [Separate]
    reports a separation, both velocities on the axis are 0. *)
Theorem unpushable_head_on_stops (ax : Axis.t) (b1 b2 : Body) (oo : bool)
    (bias : number) (b1' b2' : Body) :
  pushable b1 = false -> pushable b2 = false ->
  immovable b1 = false -> immovable b2 = false ->
  blockedStateIn ax b1 b2 oo bias = Some 0%Z ->
  (0 < displacement ax b1 /\ displacement ax b2 < 0)
  \/ (displacement ax b1 < 0 /\ 0 < displacement ax b2) ->
  Separate ax b1 b2 oo bias = Returned (true, (b1', b2')) ->
  Axis.get ax (velocity b1') = 0 /\ Axis.get ax (velocity b2') = 0.
Proof.
  intros P1 P2 I1 I2 Hbs Hd HS.
  destruct (Separate_after_Set _ _ _ _ _ _ Hbs) as [Hst Heq].
  cbv zeta in Hst, Heq.
  rewrite Heq in HS. rewrite I1, I2 in HS. clear Heq Hbs.
  cbn [negb andb Z.gtb Z.compare] in HS.
  pose proof (GetOverlap_frame ax b1 b2 oo bias) as F. cbv zeta in F.
  pose proof (GetOverlap_sameReadOnly ax b1 b2 oo bias) as [S1 S2].
  destruct (GetOverlap ax b1 b2 oo bias) as [ov [g1 g2]].
  cbn [fst snd] in *. destruct F as [[[Pg1 _] _] [[Pg2 _] _]].
  unfold sameReadOnly in S1, S2.
  destruct S1 as (R1 & _ & _ & _ & _ & _ & Q1 & _).
  destruct S2 as (R2 & _ & _ & _ & _ & _ & Q2 & _).
  destruct (BlockCheck_result (assigned ax g1 g2 ov)) as [[_ E] | [E | E]];
    [| rewrite E in Hst; discriminate ..].
  rewrite E in HS. clear E Hst.
  unfold Process.Check, Process.Run, Process.shares in HS.
  proc_simpl. rewrite Q1, Q2, P1, P2, Pg1, Pg2, R1, R2 in HS.
  unfold displacement in Hd.
  set (d1 := Axis.delta ax (position b1) (prev b1)) in *.
  set (d2 := Axis.delta ax (position b2) (prev b2)) in *.
  assert (N1 : strictEq d1 0 = false).
  { apply strictEq_false. intros E. rewrite E in Hd.
    destruct Hd as [[A _] | [A _]]; exact (Qlt_irrefl _ A). }
  assert (N2 : strictEq d2 0 = false).
  { apply strictEq_false. intros E. rewrite E in Hd.
    destruct Hd as [[_ A] | [_ A]]; exact (Qlt_irrefl _ A). }
  assert (Hb : (ltb d1 0 = false /\ gtb d1 0 = true
                /\ ltb d2 0 = true /\ gtb d2 0 = false)
               \/ (ltb d1 0 = true /\ gtb d1 0 = false
                   /\ ltb d2 0 = false /\ gtb d2 0 = true)).
  { unfold gtb. destruct Hd as [[A B] | [A B]]; [left | right];
      repeat split;
      first [ apply ltb_true; assumption
            | apply ltb_false, Qlt_le_weak; assumption ]. }
  rewrite N1, N2 in HS.
  destruct Hb as [(L1 & G1 & L2 & G2) | (L1 & G1 & L2 & G2)];
    rewrite L1, G1, L2, G2 in HS; cbn [andb negb] in HS;
    revert HS; repeat case_if; intros HS; try discriminate;
    injection HS as <- <-;
    rewrite !displaceTo_velocity, !get_set; split; reflexivity.
Qed.

Lemma unpushable_head_on_stops_witness :
  pushable ram = false /\ pushable counter = false
  /\ blockedStateIn Axis.X ram counter false 4 = Some 0%Z
  /\ (0 < displacement Axis.X ram /\ displacement Axis.X counter < 0)
  /\ exists b1' b2',
       Separate Axis.X ram counter false 4 = Returned (true, (b1', b2'))
       /\ Axis.get Axis.X (velocity b1') = 0
       /\ Axis.get Axis.X (velocity b2') = 0.
Proof.
  assert (Hbs : blockedStateIn Axis.X ram counter false 4 = Some 0%Z)
    by (vm_compute; reflexivity).
  assert (Hd : 0 < displacement Axis.X ram /\ displacement Axis.X counter < 0)
    by (split; vm_compute; reflexivity).
  split; [reflexivity|]. split; [reflexivity|]. split; [exact Hbs|].
  split; [exact Hd|].
  eexists _, _. split; [vm_compute; reflexivity|].
  apply (unpushable_head_on_stops Axis.X ram counter false 4 _ _
           eq_refl eq_refl eq_refl eq_refl Hbs (or_introl Hd)).
  vm_compute. reflexivity.
Defined.
